(** * ask-jds-mobile: message delivery, retry with backoff, and the stores

    A shallow embedding of the chat screen's delivery flow
    ([app/(tabs)/index.tsx]: [sendMessage], [retryMessage],
    [syncPendingMessages]), of the backoff policy ([utils/backoff.ts]) and
    of the two zustand stores ([stores/messagesStore.ts],
    [stores/networkStore.ts]).

    JavaScript numbers that only ever hold integers (attempt counters,
    delays in milliseconds, HTTP status codes, clock readings) are [Z].
    A JavaScript string is a [string]; each character stands for one code
    unit below 256.  React state and AsyncStorage are threaded explicitly;
    every call that leaves the process (database insert, session lookup,
    relay request, timer) is recorded in a trace, and the answer of the
    outside world is a function of the trace so far. *)

From Stdlib Require Import ZArith String Ascii List Lia DecimalString.
From stdpp Require Import gmap strings list fin_maps.
From Equations Require Import Equations.

Local Open Scope Z_scope.

(** ** utils/backoff.ts *)

Module Backoff.

Definition INITIAL_RETRY_DELAY : Z := 2000.
Definition MAX_RETRIES : Z := 4.

(** [Math.min(INITIAL_RETRY_DELAY * Math.pow(2, attempt), 30000)] *)
Definition getBackoffDelay (attempt : Z) : Z :=
  Z.min (INITIAL_RETRY_DELAY * 2 ^ attempt) 30000.

End Backoff.
Export Backoff.

(** ** JavaScript helpers used by the screen *)

Module Js.

(** White space and line terminators that [String.prototype.trim] strips,
    among the code units below 256: TAB, LF, VT, FF, CR, SP and NBSP. *)
Definition isWhiteSpace (c : ascii) : bool :=
  match N_of_ascii c with
  | 9%N | 10%N | 11%N | 12%N | 13%N | 32%N | 160%N => true
  | _ => false
  end.

Fixpoint trimStart (s : string) : string :=
  match s with
  | EmptyString => EmptyString
  | String c s' => if isWhiteSpace c then trimStart s' else s
  end.

Definition trimEnd (s : string) : string :=
  String.rev (trimStart (String.rev s)).

(** [s.trim()] *)
Definition trim (s : string) : string := trimEnd (trimStart s).

(** Every code unit of [s] is white space. *)
Fixpoint all_whitespace (s : string) : bool :=
  match s with
  | EmptyString => true
  | String c s' => isWhiteSpace c && all_whitespace s'
  end.

(** Truthiness of a string value: only the empty string is falsy. *)
Definition truthy (s : string) : bool :=
  match s with
  | EmptyString => false
  | String _ _ => true
  end.

(** Truthiness of a possibly [undefined]/[null] string. *)
Definition truthy_opt (o : option string) : bool :=
  match o with
  | Some s => truthy s
  | None => false
  end.

(** [a || b] where [a] is a possibly absent string and [b] a string. *)
Definition or_else (a : option string) (b : string) : string :=
  match a with
  | Some s => if truthy s then s else b
  | None => b
  end.

(** [n.toString()] and [`${n}`] for an integer-valued number. *)
Definition toString (n : Z) : string :=
  NilZero.string_of_int (Z.to_int n).

(** [key.startsWith(p)] *)
Definition startsWith (p key : string) : bool := String.prefix p key.

End Js.

(** ** Data model ([interface Message], [Thread], [Session]) *)

Inductive Role := user | assistant.

#[global] Instance Role_eq_dec : EqDecision Role.
Proof. solve_decision. Defined.

Record Message := mkMessage {
  id : string;
  content : string;
  role : Role;
  created_at : string;
  thread_id : string;
  pending : option bool;
  failed : option bool;
  offline : option bool;
  retryCount : option Z
}.

Record Thread := mkThread {
  Thread_id : string;
  Thread_title : string;
  Thread_created_at : string
}.

Record Session := mkSession {
  user_id : string;
  access_token : string
}.

(** [{ ...msg, failed: f, pending: p }] *)
Definition with_failed_pending (f p : bool) (msg : Message) : Message :=
  {| id := id msg; content := content msg; role := role msg;
     created_at := created_at msg; thread_id := thread_id msg;
     pending := Some p; failed := Some f; offline := offline msg;
     retryCount := retryCount msg |}.

(** [{ ...msg, failed: f, pending: p, retryCount: n }] *)
Definition with_failed_pending_retryCount (f p : bool) (n : Z) (msg : Message)
  : Message :=
  {| id := id msg; content := content msg; role := role msg;
     created_at := created_at msg; thread_id := thread_id msg;
     pending := Some p; failed := Some f; offline := offline msg;
     retryCount := Some n |}.

(** ** The outside world *)

(** A thrown (or rejected-with) value: its [message] property and whether
    it is [instanceof Error]. *)
Record Thrown := mkThrown {
  thrown_message : string;
  instanceof_Error : bool
}.

(** [new Error(msg)] *)
Definition new_Error (msg : string) : Thrown :=
  {| thrown_message := msg; instanceof_Error := true |}.

(** The [TypeError] of a property access on [undefined]; its text depends
    on the engine and is only ever logged by the code below. *)
Definition TypeError_undefined : Thrown :=
  new_Error "undefined is not an object".

(** The row of [supabase.from('messages').insert([row])]. *)
Record InsertRow := mkInsertRow {
  row_content : string;
  row_role : Role;
  row_user_id : option string;
  row_thread_id : string
}.

Inductive ChatRole := system | chat (r : Role).

Record ChatTurn := mkChatTurn {
  turn_role : ChatRole;
  turn_content : option string
}.

(** The relay request: bearer token and JSON body. *)
Record RelayRequest := mkRelayRequest {
  req_token : string;
  req_provider : string;
  req_model : string;
  req_prompt : option string;
  req_messages : list ChatTurn
}.

(** What [aiResponse.choices[0].message] is: absent somewhere along the
    path, or an object whose [content] may itself be missing. *)
Inductive Choices :=
| NoFirstMessage
| FirstMessage (content0 : option string).

(** A parsed relay body, within the relay contract: an object with an
    optional [message] string and optional [choices]. *)
Record RelayBody := mkRelayBody {
  body_message : option string;
  body_choices : Choices
}.

Inductive JsonResult :=
| JsonRejects (e : Thrown)
| JsonResolves (b : RelayBody).

Record Response := mkResponse {
  status : Z;
  json : JsonResult
}.

(** [response.ok]: the status is in the range 200-299. *)
Definition ok (r : Response) : bool :=
  (200 <=? status r) && (status r <=? 299).

Inductive FetchResult :=
| FetchRejects (e : Thrown)
| FetchResolves (r : Response).

(** Calls that leave the process. *)
Inductive Event :=
| EInsert (row : InsertRow)
| ESelect (thread : string)
| EGetSession
| EFetch (req : RelayRequest)
| ESleep (ms : Z).

(** The host: every answer of the outside world is a function of the calls
    made so far, the call being answered included.  The JSON codec of the
    cached values belongs to the host as well. *)
Record Host := mkHost {
  db_insert : list Event -> option Thrown;
  db_select : list Event -> option (list Message) * option Thrown;
  auth_getSession : list Event -> option Session;
  relay_fetch : list Event -> FetchResult;
  Date_now : list Event -> Z;
  Date_toISOString : list Event -> string;
  setItem_rejects : list Event -> string -> bool;
  JSON_stringify : list Message -> string;
  JSON_parse : string -> option (list Message);
  JSON_parse_message : string -> option Message
}.

(** ** A state-and-exception monad for the async functions *)

Record World (S : Type) := mkWorld {
  state : S;
  storage : gmap string string;
  trace : list Event
}.
Arguments mkWorld {S} _ _ _.
Arguments state {S} _.
Arguments storage {S} _.
Arguments trace {S} _.

Inductive Outcome (A : Type) :=
| Returned (a : A)
| Threw (e : Thrown).
Arguments Returned {A} _.
Arguments Threw {A} _.

Definition M (S A : Type) : Type := World S -> Outcome A * World S.

#[global] Instance M_ret (S : Type) : MRet (M S) :=
  fun A a w => (Returned a, w).

#[global] Instance M_bind (S : Type) : MBind (M S) :=
  fun A B f m w =>
    match m w with
    | (Returned a, w') => f a w'
    | (Threw e, w') => (Threw e, w')
    end.

Section Effects.
Context {S : Type}.

Definition throw {A : Type} (e : Thrown) : M S A := fun w => (Threw e, w).

(** [try { body } catch (err) { handler err }] *)
Definition try_catch {A : Type} (body : M S A) (handler : Thrown -> M S A)
  : M S A :=
  fun w =>
    match body w with
    | (Returned a, w') => (Returned a, w')
    | (Threw e, w') => handler e w'
    end.

(** [try { body } finally { fin }], for a [fin] that completes normally. *)
Definition try_finally {A : Type} (body : M S A) (fin : M S unit) : M S A :=
  fun w =>
    match body w with
    | (r, w') =>
        match fin w' with
        | (Returned _, w'') => (r, w'')
        | (Threw e, w'') => (Threw e, w'')
        end
    end.

Definition get_state : M S S := fun w => (Returned (state w), w).

Definition modify (f : S -> S) : M S unit :=
  fun w => (Returned tt, mkWorld (f (state w)) (storage w) (trace w)).

(** Record a call and hand back the trace the host answers from. *)
Definition call (e : Event) : M S (list Event) :=
  fun w =>
    let t := trace w ++ [e] in
    (Returned t, mkWorld (state w) (storage w) t).

Definition get_trace : M S (list Event) := fun w => (Returned (trace w), w).

Definition when (b : bool) (m : M S unit) : M S unit :=
  if b then m else mret tt.

End Effects.

(** ** AsyncStorage *)

Module AsyncStorage.
Section AsyncStorage.
Context {S : Type} (host : Host).

Definition getItem (key : string) : M S (option string) :=
  fun w => (Returned (storage w !! key), w).

(** [setItem] rejects when the host says so and then stores nothing. *)
Definition setItem (key value : string) : M S unit :=
  fun w =>
    if setItem_rejects host (trace w) key
    then (Threw (new_Error "AsyncStorage.setItem failed"), w)
    else (Returned tt,
          mkWorld (state w) (<[key := value]> (storage w)) (trace w)).

Definition removeItem (key : string) : M S unit :=
  fun w => (Returned tt, mkWorld (state w) (delete key (storage w)) (trace w)).

(** The keys, in the enumeration order of the map. *)
Definition getAllKeys : M S (list string) :=
  fun w => (Returned (elements (dom (storage w))), w).

End AsyncStorage.
End AsyncStorage.

(** ** Network, database and timer calls *)

Section Calls.
Context {S : Type} (host : Host).

(** [supabase.from('messages').insert([row])], yielding its [error]. *)
Definition insert_message (row : InsertRow) : M S (option Thrown) :=
  t ← call (EInsert row); mret (db_insert host t).

(** [supabase.from('messages').select('*').eq('thread_id', t).order(..)],
    yielding [{ data, error }]. *)
Definition select_messages (thread : string)
  : M S (option (list Message) * option Thrown) :=
  t ← call (ESelect thread); mret (db_select host t).

(** [supabase.auth.getSession()], yielding [data.session]. *)
Definition getSession : M S (option Session) :=
  t ← call EGetSession; mret (auth_getSession host t).

(** [fetch(relayUrl, ...)] *)
Definition fetch (req : RelayRequest) : M S Response :=
  t ← call (EFetch req);
  match relay_fetch host t with
  | FetchRejects e => throw e
  | FetchResolves r => mret r
  end.

(** [response.json()] *)
Definition response_json (r : Response) : M S RelayBody :=
  match json r with
  | JsonRejects e => throw e
  | JsonResolves b => mret b
  end.

(** [sleep(ms)] of utils/backoff.ts *)
Definition sleep (ms : Z) : M S unit :=
  call (ESleep ms);; mret tt.

End Calls.

(** ** app/(tabs)/index.tsx: the chat screen *)

Module ChatScreen.

(** The [useState] cells of [ChatScreen] that the delivery flow touches.
    A value of this type is also what a render has captured: a handler
    reads the cells of the render it was created in and writes through
    the setters. *)
Record Screen := mkScreen {
  messages : list Message;
  currentThread : option Thread;
  input : string;
  isLoading : bool;
  error : option string;
  session : option Session;
  systemPrompt : option string
}.

Definition setMessages (f : list Message -> list Message) : M Screen unit :=
  modify (fun s =>
    {| messages := f (messages s); currentThread := currentThread s;
       input := input s; isLoading := isLoading s; error := error s;
       session := session s; systemPrompt := systemPrompt s |}).

Definition setInput (v : string) : M Screen unit :=
  modify (fun s =>
    {| messages := messages s; currentThread := currentThread s;
       input := v; isLoading := isLoading s; error := error s;
       session := session s; systemPrompt := systemPrompt s |}).

Definition setIsLoading (v : bool) : M Screen unit :=
  modify (fun s =>
    {| messages := messages s; currentThread := currentThread s;
       input := input s; isLoading := v; error := error s;
       session := session s; systemPrompt := systemPrompt s |}).

Definition setError (v : option string) : M Screen unit :=
  modify (fun s =>
    {| messages := messages s; currentThread := currentThread s;
       input := input s; isLoading := isLoading s; error := v;
       session := session s; systemPrompt := systemPrompt s |}).

(** [[{ role: 'system', content: systemPrompt },
      ...messages.map(msg => ({ role: msg.role, content: msg.content }))]] *)
Definition prompt_context (render : Screen) : list ChatTurn :=
  {| turn_role := system; turn_content := systemPrompt render |}
  :: map (fun msg => {| turn_role := chat (role msg);
                        turn_content := Some (content msg) |})
         (messages render).

(** The message a send creates: [{ id: Date.now().toString(), content,
    role, created_at: new Date().toISOString(), thread_id }]. *)
Definition fresh_message (host : Host) (t : list Event) (c : string)
    (r : Role) (thread : Thread) : Message :=
  {| id := Js.toString (Date_now host t); content := c; role := r;
     created_at := Date_toISOString host t; thread_id := Thread_id thread;
     pending := None; failed := None; offline := None; retryCount := None |}.

(** [prev.map(msg => msg.id === target ? { ...msg, failed: true,
    pending: false } : msg)] *)
Definition mark_failed (target : string) (prev : list Message) : list Message :=
  map (fun msg => if String.eqb (id msg) target
                  then with_failed_pending true false msg else msg) prev.

(** [prev.map(msg => msg.id === target ? { ...msg, failed: f,
    pending: false, retryCount: attempt } : msg)] *)
Definition mark_retried (f : bool) (target : string) (attempt : Z)
    (prev : list Message) : list Message :=
  map (fun msg => if String.eqb (id msg) target
                  then with_failed_pending_retryCount f false attempt msg
                  else msg) prev.

(** The row [{ content, role, user_id: session?.user.id, thread_id }]. *)
Definition message_row (render : Screen) (thread : string) (c : string)
    (r : Role) : InsertRow :=
  {| row_content := c; row_role := r;
     row_user_id := user_id <$> session render; row_thread_id := thread |}.

(** The relay request of [sendMessage]. *)
Definition send_request (currentSession : Session) (render : Screen)
    (userMessage : string) : RelayRequest :=
  {| req_token := access_token currentSession;
     req_provider := "openai"; req_model := "chatgpt-4o-latest";
     req_prompt := Some userMessage;
     req_messages := prompt_context render |}.

(** The relay request of [retryMessage]. *)
Definition retry_request (currentSession : Session) (render : Screen)
  : RelayRequest :=
  {| req_token := access_token currentSession;
     req_provider := "openai"; req_model := "gpt-4o";
     req_prompt := None;
     req_messages := prompt_context render |}.

(** The text of the error thrown for a response that is not [ok]:
    [errorData.message || `AI request failed with status ${status}`] with
    [errorData = await response.json().catch(() => ({}))]. *)
Definition relay_error_text (r : Response) : string :=
  Js.or_else
    (match json r with
     | JsonRejects _ => None
     | JsonResolves errorData => body_message errorData
     end)
    ("AI request failed with status " +:+ Js.toString (status r)).

Section Flow.
Context (host : Host).

(** The [try] block of [sendMessage]. *)
Definition sendMessage_try (render : Screen) (thread : Thread)
    (userMessage : string) : M Screen unit :=
  userError ← insert_message host
    (message_row render (Thread_id thread) userMessage user);
  match userError with
  | Some e =>
      throw (new_Error ("Failed to save user message: " +:+ thrown_message e))
  | None => mret tt
  end;;
  currentSession ← getSession host;
  match currentSession with
  | None => throw (new_Error "No active session")
  | Some currentSession =>
      response ← fetch host (send_request currentSession render userMessage);
      (if negb (ok response) then throw (new_Error (relay_error_text response))
       else mret tt);;
      aiResponse ← response_json response;
      match body_choices aiResponse with
      | FirstMessage (Some assistantMessage) =>
          if Js.truthy assistantMessage then
            assistantError ← insert_message host
              (message_row render (Thread_id thread) assistantMessage
                 assistant);
            match assistantError with
            | Some e => throw e
            | None => mret tt
            end;;
            t ← get_trace;
            setMessages (fun currentMessages =>
              currentMessages
              ++ [fresh_message host t assistantMessage assistant thread])
          else throw (new_Error "Invalid AI response format")
      | _ => throw (new_Error "Invalid AI response format")
      end
  end.

(** [const sendMessage = async () => { ... }], run from the render
    [render].  The guard is [!input.trim() || isLoading || !currentThread]. *)
Definition sendMessage (render : Screen) : M Screen unit :=
  match currentThread render with
  | Some thread =>
      if negb (Js.truthy (Js.trim (input render))) || isLoading render
      then mret tt
      else
        let userMessage := Js.trim (input render) in
        setInput "";;
        setIsLoading true;;
        t ← get_trace;
        let newMessage := fresh_message host t userMessage user thread in
        setMessages (fun currentMessages => currentMessages ++ [newMessage]);;
        try_finally
          (try_catch
             (sendMessage_try render thread userMessage)
             (fun err =>
                setError (Some (if instanceof_Error err
                                then thrown_message err
                                else "Failed to send message"));;
                setMessages (mark_failed (id newMessage))))
          (setIsLoading false)
  | None => mret tt
  end.

(** The [try] block of [retryMessage] up to and including the update of
    the list. *)
Definition retryMessage_try (render : Screen) (message : Message)
    (attempt : Z) : M Screen unit :=
  when (0 <? attempt) (sleep (getBackoffDelay attempt));;
  currentSession ← getSession host;
  match currentSession with
  | None => throw (new_Error "No active session")
  | Some currentSession =>
      response ← fetch host (retry_request currentSession render);
      (if negb (ok response) then
         errorData ← response_json response;
         throw (new_Error
           (Js.or_else (body_message errorData) "Failed to get AI response"))
       else mret tt);;
      aiResponse ← response_json response;
      match body_choices aiResponse with
      | NoFirstMessage => throw TypeError_undefined
      | FirstMessage assistantMessage =>
          error ← insert_message host
            (message_row render (thread_id message) (content message)
               (role message));
          match error with
          | Some e => throw e
          | None => mret tt
          end;;
          setMessages (mark_retried false (id message) attempt)
      end
  end.

(** The branch [attempt >= 4] of [retryMessage]. *)
Definition retryMessage_exhausted (message : Message) (attempt : Z)
  : M Screen unit :=
  setError (Some "Message failed after multiple attempts");;
  setMessages (mark_retried true (id message) attempt).

(** [const retryMessage = async (message, attempt = 0) => { ... }].  The
    handler of the [catch] returns the recursive call; the [finally] is
    modelled as running once that call has completed, which changes no
    final state: the nested call ends with [isLoading] false as well. *)
Equations retryMessage (render : Screen) (message : Message) (attempt : Z)
    (w : World Screen) : Outcome unit * World Screen
    by wf (Z.to_nat (4 - attempt)) lt :=
  retryMessage render message attempt w with Z_le_gt_dec 4 attempt := {
    | left _ => retryMessage_exhausted message attempt w
    | right _ =>
        (setIsLoading true;;
         setError None;;
         try_finally
           (try_catch
              (retryMessage_try render message attempt)
              (fun err w' => retryMessage render message (attempt + 1) w'))
           (setIsLoading false)) w
  }.
Next Obligation. lia. Qed.

(** The [for (const key of pendingKeys)] loop of [syncPendingMessages]. *)
Fixpoint syncPendingMessages_loop (render : Screen)
    (pendingKeys : list string) : M Screen unit :=
  match pendingKeys with
  | [] => mret tt
  | key :: rest =>
      item ← AsyncStorage.getItem key;
      match JSON_parse_message host (Js.or_else item "") with
      | None => throw (new_Error "JSON Parse error")
      | Some message =>
          retryMessage render message 0;;
          AsyncStorage.removeItem key;;
          syncPendingMessages_loop render rest
      end
  end.

Definition syncPendingMessages (render : Screen) : M Screen unit :=
  try_catch
    (keys ← AsyncStorage.getAllKeys;
     let pendingKeys :=
       List.filter (fun key => Js.startsWith "pending_message_" key) keys in
     syncPendingMessages_loop render pendingKeys)
    (fun err => mret tt).

(** [useEffect(() => { if (isOnline) syncPendingMessages(); }, [isOnline])] *)
Definition useEffect_isOnline (render : Screen) (isOnline : bool)
  : M Screen unit :=
  if isOnline then syncPendingMessages render else mret tt.

End Flow.
End ChatScreen.

(** ** stores/networkStore.ts *)

Module NetworkStore.

Record Store := mkStore { isOnline : bool }.

Definition initial : Store := {| isOnline := true |}.

Definition setIsOnline (status : bool) (s : Store) : Store :=
  {| isOnline := status |}.

(** The NetInfo listener: [setIsOnline(state.isConnected ?? true)]. *)
Definition listener (isConnected : option bool) (s : Store) : Store :=
  setIsOnline (default true isConnected) s.

End NetworkStore.

(** The chat screen re-renders when the network store changes; the effect
    with dependency list [[isOnline]] runs again when the value differs
    from the one of the previous render. *)
Definition on_network_update (host : Host) (render : ChatScreen.Screen)
    (before after : NetworkStore.Store) : M ChatScreen.Screen unit :=
  if Bool.eqb (NetworkStore.isOnline before) (NetworkStore.isOnline after)
  then mret tt
  else ChatScreen.useEffect_isOnline host render (NetworkStore.isOnline after).

(** ** stores/messagesStore.ts *)

Module MessagesStore.

Record Store := mkStore {
  messages : list Message;
  pendingMessages : list Message
}.

Definition initial : Store := {| messages := []; pendingMessages := [] |}.

(** [`cached_messages_${threadId}`] *)
Definition thread_cache_key (threadId : string) : string :=
  "cached_messages_" +:+ threadId.

(** [set({ messages })] *)
Definition set_messages (ms : list Message) : M Store unit :=
  modify (fun s => {| messages := ms; pendingMessages := pendingMessages s |}).

Section Actions.
Context (host : Host).

(** [setMessages]: the rejection of the cache write is logged only. *)
Definition setMessages (ms : list Message) : M Store unit :=
  set_messages ms;;
  try_catch
    (AsyncStorage.setItem host "cached_messages" (JSON_stringify host ms))
    (fun err => mret tt).

Definition addMessage (message : Message) : M Store unit :=
  modify (fun s =>
    {| messages := messages s ++ [message];
       pendingMessages :=
         match pending message with
         | Some true => pendingMessages s ++ [message]
         | _ => pendingMessages s
         end |}).

Definition syncMessages (threadId : string) : M Store unit :=
  try_catch
    (cached ← AsyncStorage.getItem (thread_cache_key threadId);
     (if Js.truthy_opt cached then
        match JSON_parse host (default "" cached) with
        | Some ms => set_messages ms
        | None => throw (new_Error "JSON Parse error")
        end
      else mret tt);;
     r ← select_messages host threadId;
     match snd r with
     | Some e => throw e
     | None => mret tt
     end;;
     match fst r with
     | Some data =>
         set_messages data;;
         try_catch
           (AsyncStorage.setItem host (thread_cache_key threadId)
              (JSON_stringify host data))
           (fun err => mret tt)
     | None => mret tt
     end)
    (fun err => mret tt).

(** The [for (const message of pendingMessages)] loop of
    [retryFailedMessages], over the list read by [get()] at its start. *)
Fixpoint retryFailedMessages_loop (todo : list Message) : M Store unit :=
  match todo with
  | [] => mret tt
  | message :: rest =>
      try_catch
        (error ← insert_message host
           {| row_content := content message; row_role := role message;
              row_user_id := None; row_thread_id := thread_id message |};
         match error with
         | Some e => throw e
         | None => mret tt
         end;;
         modify (fun s =>
           {| messages := messages s;
              pendingMessages :=
                List.filter (fun m => negb (String.eqb (id m) (id message)))
                            (pendingMessages s) |}))
        (fun err => mret tt);;
      retryFailedMessages_loop rest
  end.

Definition retryFailedMessages : M Store unit :=
  s ← get_state; retryFailedMessages_loop (pendingMessages s).

End Actions.
End MessagesStore.

(** ** Vocabulary of the statements *)

(** Each attempt of a retry starts with one session lookup: the number of
    attempts in a stretch of the trace is the number of its lookups. *)
Fixpoint attempts_made (evs : list Event) : nat :=
  match evs with
  | [] => O
  | EGetSession :: rest => Datatypes.S (attempts_made rest)
  | _ :: rest => attempts_made rest
  end.

Fixpoint relay_calls (evs : list Event) : nat :=
  match evs with
  | [] => O
  | EFetch _ :: rest => Datatypes.S (relay_calls rest)
  | _ :: rest => relay_calls rest
  end.

(** The delays slept, in order. *)
Fixpoint sleeps (evs : list Event) : list Z :=
  match evs with
  | [] => []
  | ESleep ms :: rest => ms :: sleeps rest
  | _ :: rest => sleeps rest
  end.

(** The rows written to the remote [messages] table, in order. *)
Fixpoint inserted_rows (evs : list Event) : list InsertRow :=
  match evs with
  | [] => []
  | EInsert row :: rest => row :: inserted_rows rest
  | _ :: rest => inserted_rows rest
  end.

(** The relay request fails for [retryMessage]: the request is rejected,
    the status is not 2xx, the body does not parse, or the body has no
    [choices[0].message]. *)
Definition relay_failure (r : FetchResult) : bool :=
  match r with
  | FetchRejects _ => true
  | FetchResolves resp =>
      negb (ok resp)
      || match json resp with
         | JsonRejects _ => true
         | JsonResolves b =>
             match body_choices b with
             | NoFirstMessage => true
             | FirstMessage _ => false
             end
         end
  end.

(** [pending] and [failed] are not both true. *)
Definition flags_consistent (m : Message) : bool :=
  negb (bool_decide (pending m = Some true)
        && bool_decide (failed m = Some true)).

Definition count_role (r : Role) (ms : list Message) : nat :=
  length (List.filter (fun m => bool_decide (role m = r)) ms).

(** The world in which the [try] block of [retryMessage] starts: after
    [setIsLoading(true); setError(null)]. *)
Definition retry_begin (w : World ChatScreen.Screen)
  : World ChatScreen.Screen :=
  snd ((ChatScreen.setIsLoading true;; ChatScreen.setError None) w).

(** The world in which [retryMessage] ends: after the [finally] block. *)
Definition retry_end (w : World ChatScreen.Screen)
  : World ChatScreen.Screen :=
  snd (ChatScreen.setIsLoading false w).

(** [retry_run host render message a w k w']: started at attempt [a] in
    world [w], the [try] blocks of the attempts [a], ..., [k - 1] throw
    and the one of attempt [k < 4] completes, in world [w']. *)
Inductive retry_run (host : Host) (render : ChatScreen.Screen)
    (message : Message)
  : Z -> World ChatScreen.Screen -> Z -> World ChatScreen.Screen -> Prop :=
| retry_run_success (attempt : Z) (w w1 : World ChatScreen.Screen) :
    attempt < 4 ->
    ChatScreen.retryMessage_try host render message attempt (retry_begin w)
      = (Returned tt, w1) ->
    retry_run host render message attempt w attempt w1
| retry_run_failure (attempt : Z) (w w1 : World ChatScreen.Screen)
    (e : Thrown) (k : Z) (w2 : World ChatScreen.Screen) :
    attempt < 4 ->
    ChatScreen.retryMessage_try host render message attempt (retry_begin w)
      = (Threw e, w1) ->
    retry_run host render message (attempt + 1) w1 k w2 ->
    retry_run host render message attempt w k w2.

(** The delays slept by [n] consecutive attempts starting at [attempt]:
    none before attempt 0, [getBackoffDelay attempt] before the others. *)
Fixpoint backoff_schedule (n : nat) (attempt : Z) : list Z :=
  match n with
  | O => []
  | Datatypes.S n' =>
      (if 0 <? attempt then [getBackoffDelay attempt] else [])
      ++ backoff_schedule n' (attempt + 1)
  end.

(** ** Concrete hosts and worlds *)

Module Scenario.
Import ChatScreen.

Definition thread1 : Thread :=
  {| Thread_id := "t1"; Thread_title := "New Chat";
     Thread_created_at := "2024-05-01T10:00:00.000Z" |}.

Definition session1 : Session :=
  {| user_id := "u1"; access_token := "jwt" |}.

(** A host whose database and session always answer, whose clock advances
    with the trace, and whose relay answers [relay]. *)
Definition host_with (relay : list Event -> FetchResult) : Host :=
  {| db_insert := fun _ => None;
     db_select := fun _ => (Some [], None);
     auth_getSession := fun _ => Some session1;
     relay_fetch := relay;
     Date_now := fun t => 1714557600000 + Z.of_nat (length t);
     Date_toISOString := fun _ => "2024-05-01T10:00:00.000Z";
     setItem_rejects := fun _ _ => false;
     JSON_stringify := fun ms => String.concat "," (map content ms);
     JSON_parse := fun _ => None;
     JSON_parse_message := fun _ => None |}.

Definition reply_200 (text : string) : FetchResult :=
  FetchResolves
    {| status := 200;
       json := JsonResolves {| body_message := None;
                               body_choices := FirstMessage (Some text) |} |}.

Definition error_500 (message : option string) : FetchResult :=
  FetchResolves
    {| status := 500;
       json := JsonResolves {| body_message := message;
                               body_choices := NoFirstMessage |} |}.

Definition network_down : FetchResult :=
  FetchRejects (new_Error "Network request failed").

(** The relay answers every request with the reply. *)
Definition relay_up : Host :=
  host_with (fun _ => reply_200 "Promissory estoppel is...").

(** The relay answers every request with HTTP 500 and the given body. *)
Definition relay_500 (message : option string) : Host :=
  host_with (fun _ => error_500 message).

(** No request reaches the relay. *)
Definition relay_down : Host := host_with (fun _ => network_down).

(** The first two requests fail, the later ones are answered. *)
Definition relay_flaky : Host :=
  host_with (fun t => if (relay_calls t <=? 2)%nat then network_down
                      else reply_200 "Promissory estoppel is...").

Definition screen_with (ms : list Message) (text : string) : Screen :=
  {| messages := ms; currentThread := Some thread1; input := text;
     isLoading := false; error := None; session := Some session1;
     systemPrompt := Some "You are a legal study assistant." |}.

Definition world_with (ms : list Message) (text : string) : World Screen :=
  {| state := screen_with ms text; storage := ∅; trace := [] |}.

(** The user has typed a question and nothing has been sent yet. *)
Definition asking : Screen := screen_with [] "What is promissory estoppel?".

Definition asking_world : World Screen :=
  world_with [] "What is promissory estoppel?".

(** A user message whose send failed. *)
Definition failed_question : Message :=
  {| id := "1714557600000"; content := "What is promissory estoppel?";
     role := user; created_at := "2024-05-01T10:00:00.000Z";
     thread_id := "t1"; pending := Some false; failed := Some true;
     offline := None; retryCount := None |}.

End Scenario.

(** ** Vocabulary of the further statements *)

(** The text that the [catch] of [sendMessage] surfaces for a thrown value:
    [err instanceof Error ? err.message : 'Failed to send message']. *)
Definition surfaced_text (err : Thrown) : string :=
  if instanceof_Error err then thrown_message err
  else "Failed to send message".

(** The reply that [sendMessage] accepts from a parsed body: a truthy
    [choices?.[0]?.message?.content]. *)
Definition usable_reply (b : RelayBody) : option string :=
  match body_choices b with
  | FirstMessage (Some c) => if Js.truthy c then Some c else None
  | _ => None
  end.

(** How a send that passed its guard and then failed leaves the world:
    the user message is last in the list and marked failed, the error is
    [text], the input is cleared, the loading indicator is off, the storage
    is as before and the calls made are [evs]. *)
Definition send_failed (host : Host) (render : ChatScreen.Screen)
    (thread : Thread) (w w' : World ChatScreen.Screen) (text : string)
    (evs : list Event) : Prop :=
  let u := ChatScreen.fresh_message host (trace w)
             (Js.trim (ChatScreen.input render)) user thread in
  ChatScreen.messages (state w') =
    ChatScreen.mark_failed (id u) (ChatScreen.messages (state w))
    ++ [with_failed_pending true false u]
  /\ ChatScreen.error (state w') = Some text
  /\ ChatScreen.input (state w') = ""
  /\ ChatScreen.isLoading (state w') = false
  /\ storage w' = storage w
  /\ trace w' = trace w ++ evs.

(** What identifies a message in the list, as opposed to its delivery
    flags: everything but [pending], [failed] and [retryCount]. *)
Definition message_key (m : Message)
  : string * string * Role * string * string * option bool :=
  (id m, content m, role m, created_at m, thread_id m, offline m).

(** The keys that [syncPendingMessages] treats as queued messages. *)
Definition is_pending_key (key : string) : bool :=
  Js.startsWith "pending_message_" key.

(** The row that [retryFailedMessages] of the message store inserts:
    [{ content, role, thread_id }], without a [user_id]. *)
Definition store_retry_row (m : Message) : InsertRow :=
  {| row_content := content m; row_role := role m;
     row_user_id := None; row_thread_id := thread_id m |}.

(** [addMessage] for each message of a list, in order. *)
Definition addMessage_each (l : list Message)
    (w : World MessagesStore.Store) : World MessagesStore.Store :=
  fold_left (fun w m => snd (MessagesStore.addMessage m w)) l w.

(** The ids of the messages of [todo] whose insert the database accepts
    when [retryFailedMessages] goes through [todo] from the trace [tr]. *)
Fixpoint accepted_ids (host : Host) (tr : list Event) (todo : list Message)
  : list string :=
  match todo with
  | [] => []
  | m :: rest =>
      let tr' := tr ++ [EInsert (store_retry_row m)] in
      match db_insert host tr' with
      | None => id m :: accepted_ids host tr' rest
      | Some _ => accepted_ids host tr' rest
      end
  end.

(** [id m] is one of [ids]. *)
Definition id_among (ids : list string) (m : Message) : bool :=
  existsb (String.eqb (id m)) ids.

(** ** app/(tabs)/index.tsx: threads, the welcome message and the title *)

Module Navigation.
Import ChatScreen.

(** Calls to the [threads] table. *)
Inductive TableCall :=
| SelectThread (thread : string)
| InsertThread (title : string) (user : string)
| SelectLatestThread (user : option string)
| UpdateThreadTitle (thread : string) (title : string).

(** The answers of the database to the calls of this part of the screen,
    given the calls recorded so far (the call being answered included):
    [{ data, error }], or [{ error }] for the update. *)
Record Tables := mkTables {
  thread_by_id : list Event -> list TableCall -> option Thread * option Thrown;
  thread_created : list Event -> list TableCall -> option Thread * option Thrown;
  latest_threads :
    list Event -> list TableCall -> option (list Thread) * option Thrown;
  title_updated : list Event -> list TableCall -> option Thrown;
  thread_messages :
    list Event -> list TableCall -> option (list Message) * option Thrown
}.

(** The cells of the screen together with the log of the calls to the
    [threads] table. *)
Record Nav := mkNav {
  screen : Screen;
  table_calls : list TableCall
}.

(** Runs a computation on the cells of the screen. *)
Definition on_screen {A : Type} (m : M Screen A) : M Nav A :=
  fun w =>
    match m (mkWorld (screen (state w)) (storage w) (trace w)) with
    | (r, w') =>
        (r, mkWorld {| screen := state w'; table_calls := table_calls (state w) |}
              (storage w') (trace w'))
    end.

Definition setCurrentThread (f : option Thread -> option Thread)
  : M Screen unit :=
  modify (fun s =>
    {| messages := messages s; currentThread := f (currentThread s);
       input := input s; isLoading := isLoading s; error := error s;
       session := session s; systemPrompt := systemPrompt s |}).

(** Records a call to the [threads] table and yields its answer. *)
Definition table_call {A : Type} (c : TableCall)
    (answer : list Event -> list TableCall -> A) : M Nav A :=
  fun w =>
    let calls := table_calls (state w) ++ [c] in
    (Returned (answer (trace w) calls),
     mkWorld {| screen := screen (state w); table_calls := calls |}
       (storage w) (trace w)).

(** [firstMessage.slice(0, 50)] *)
Definition title_of (firstMessage : string) : string :=
  String.substring 0 50 firstMessage.

(** [{ ...prev, title }] *)
Definition with_title (title : string) (prev : Thread) : Thread :=
  {| Thread_id := Thread_id prev; Thread_title := title;
     Thread_created_at := Thread_created_at prev |}.

(** The message of the welcome effect. *)
Definition welcome_message (created : string) (thread : Thread) : Message :=
  {| id := "welcome";
     content := "Hello! I'm your legal study buddy. I can help you understand legal concepts, prepare for exams, and discuss case law. What legal topic would you like to explore?";
     role := assistant; created_at := created;
     thread_id := Thread_id thread;
     pending := None; failed := None; offline := None; retryCount := None |}.

(** [useEffect(() => { if (session && currentThread &&
    messages.length === 0 && !messages.some(m => m.id === 'welcome'))
    setMessages([welcome]); }, [session, currentThread, messages])] *)
Definition welcome_effect (host : Host) (render : Screen) : M Screen unit :=
  match session render, currentThread render with
  | Some _, Some thread =>
      if (length (messages render) =? 0)%nat
         && negb (existsb (fun m => String.eqb (id m) "welcome")
                    (messages render))
      then
        t ← get_trace;
        setMessages (fun _ =>
          [welcome_message (Date_toISOString host t) thread])
      else mret tt
  | _, _ => mret tt
  end.

Section Threads.
Context (tables : Tables).

(** The query for the messages of a thread, in creation order. *)
Definition select_thread_messages (thread : string)
  : M Nav (option (list Message) * option Thrown) :=
  fun w =>
    let t := trace w ++ [ESelect thread] in
    (Returned (thread_messages tables t (table_calls (state w))),
     mkWorld (state w) (storage w) t).

(** [const loadThread = async (id) => { ... }] *)
Definition loadThread (thread : string) : M Nav unit :=
  try_catch
    (found ← table_call (SelectThread thread) (thread_by_id tables);
     match snd found with
     | Some threadError => throw threadError
     | None => mret tt
     end;;
     on_screen (setCurrentThread (fun _ => fst found));;
     rows ← select_thread_messages thread;
     match snd rows with
     | Some messagesError => throw messagesError
     | None => mret tt
     end;;
     (* setMessages(messagesData || []) *)
     on_screen (setMessages (fun _ => default [] (fst rows))))
    (fun err => on_screen (setError (Some "Failed to load thread"))).

(** [const initializeThread = async () => { ... }], run from the render
    [render]. *)
Definition initializeThread (render : Screen) : M Nav unit :=
  match session render with
  | None => mret tt
  | Some s =>
      try_catch
        (created ← table_call (InsertThread "New Chat" (user_id s))
                     (thread_created tables);
         match snd created with
         | Some createError => throw createError
         | None => mret tt
         end;;
         on_screen (setCurrentThread (fun _ => fst created));;
         on_screen (setMessages (fun _ => [])))
        (fun err => on_screen (setError (Some "Failed to create new thread")))
  end.

(** [const checkExistingThreads = async () => { ... }], run from the
    render [render].  The calls to [loadThread] and [initializeThread] are
    not awaited in the source; neither of them ever rejects, so running
    them in place reaches the same final state. *)
Definition checkExistingThreads (render : Screen) : M Nav unit :=
  try_catch
    (found ← table_call (SelectLatestThread (user_id <$> session render))
               (latest_threads tables);
     match snd found with
     | Some e => throw e
     | None => mret tt
     end;;
     match fst found with
     | Some (first :: _) =>
         on_screen (setCurrentThread (fun _ => Some first));;
         loadThread (Thread_id first)
     | _ => initializeThread render
     end)
    (fun err => on_screen (setError (Some "Failed to load threads"))).

(** [const updateThreadTitle = async (threadId, firstMessage) => { ... }] *)
Definition updateThreadTitle (thread : string) (firstMessage : string)
  : M Nav unit :=
  try_catch
    (updateError ← table_call (UpdateThreadTitle thread (title_of firstMessage))
                     (title_updated tables);
     match updateError with
     | Some e => throw e
     | None => mret tt
     end;;
     on_screen (setCurrentThread (fun prev =>
       match prev with
       | Some p => Some (with_title (title_of firstMessage) p)
       | None => None
       end)))
    (fun err => mret tt).

End Threads.
End Navigation.

(** Unfolds the monad of the thread functions. *)
Ltac run_nav :=
  unfold Navigation.loadThread, Navigation.initializeThread,
    Navigation.checkExistingThreads, Navigation.updateThreadTitle,
    Navigation.select_thread_messages, Navigation.table_call,
    Navigation.on_screen, Navigation.setCurrentThread,
    ChatScreen.setMessages, ChatScreen.setError,
    mbind, M_bind, mret, M_ret, try_catch, throw, modify; simpl.

(** ** Further concrete hosts and worlds *)

Module Cases.
Import ChatScreen.

Definition refusal : Thrown :=
  {| thrown_message := "permission denied for table messages";
     instanceof_Error := false |}.

(** A toy codec for the cached lists: it reads back the two lists it is
    used on. *)
Definition stringify (ms : list Message) : string :=
  match ms with
  | [] => "[]"
  | _ => "rows"
  end.

Definition parse (s : string) : option (list Message) :=
  if String.eqb s "rows" then Some [Scenario.failed_question]
  else if String.eqb s "[]" then Some []
  else None.

(** Every item but [corrupt] reads as the failed question. *)
Definition parse_message (s : string) : option Message :=
  if String.eqb s "corrupt" then None else Some Scenario.failed_question.

Definition host_of (insert : list Event -> option Thrown)
    (sessions : list Event -> option Session)
    (relay : list Event -> FetchResult)
    (select : list Event -> option (list Message) * option Thrown) : Host :=
  {| db_insert := insert;
     db_select := select;
     auth_getSession := sessions;
     relay_fetch := relay;
     Date_now := fun t => 1714557600000 + Z.of_nat (length t);
     Date_toISOString := fun _ => "2024-05-01T10:00:00.000Z";
     setItem_rejects := fun _ _ => false;
     JSON_stringify := stringify;
     JSON_parse := parse;
     JSON_parse_message := parse_message |}.

Definition answered (t : list Event) : FetchResult :=
  Scenario.reply_200 "Promissory estoppel is...".

Definition no_rows (t : list Event)
  : option (list Message) * option Thrown := (Some [], None).

(** The database refuses every insert. *)
Definition insert_refused : Host :=
  host_of (fun _ => Some refusal) (fun _ => Some Scenario.session1)
    answered no_rows.

(** The session has expired. *)
Definition signed_out : Host :=
  host_of (fun _ => None) (fun _ => None) answered no_rows.

(** The relay answers 2xx with a first choice whose message has no
    content. *)
Definition without_content : Host :=
  host_of (fun _ => None) (fun _ => Some Scenario.session1)
    (fun _ => FetchResolves
       {| status := 200;
          json := JsonResolves {| body_message := None;
                                  body_choices := FirstMessage None |} |})
    no_rows.

(** The database accepts the rows of the user and refuses those of the
    assistant. *)
Definition assistant_refused : Host :=
  host_of
    (fun t => match last t with
              | Some (EInsert row) =>
                  match row_role row with
                  | assistant => Some refusal
                  | user => None
                  end
              | _ => None
              end)
    (fun _ => Some Scenario.session1) answered no_rows.

(** The server returns the rows of the thread the first time it is asked
    and fails afterwards. *)
Definition server_then_down : Host :=
  host_of (fun _ => None) (fun _ => Some Scenario.session1) answered
    (fun t => match t with
              | [ESelect _] => (Some [Scenario.failed_question], None)
              | _ => (None, Some refusal)
              end).

Definition store_world (ms : list Message) (σ : gmap string string)
  : World MessagesStore.Store :=
  {| state := {| MessagesStore.messages := ms;
                 MessagesStore.pendingMessages := [] |};
     storage := σ; trace := [] |}.

(** A queue with one message, next to a key of another kind. *)
Definition queued_world (item : string) : World Screen :=
  {| state := Scenario.screen_with [Scenario.failed_question] "";
     storage := {[ "pending_message_1714557600000" := item;
                   "color_scheme" := "dark" ]};
     trace := [] |}.

(** The [threads] table: the lookups answer [found], the creation answers
    with a new thread, the messages of a thread are [rows]. *)
Definition tables_of (found : option Thread * option Thrown)
    (latest : option (list Thread) * option Thrown)
    (rows : option (list Message) * option Thrown) : Navigation.Tables :=
  {| Navigation.thread_by_id := fun _ _ => found;
     Navigation.thread_created := fun _ _ => (Some Scenario.thread1, None);
     Navigation.latest_threads := fun _ _ => latest;
     Navigation.title_updated := fun _ _ => None;
     Navigation.thread_messages := fun _ _ => rows |}.

Definition nav_world (s : Screen) : World Navigation.Nav :=
  {| state := {| Navigation.screen := s; Navigation.table_calls := [] |};
     storage := ∅; trace := [] |}.

(** The screen shows an older thread with one message. *)
Definition older_thread : Thread :=
  {| Thread_id := "t0"; Thread_title := "Consideration";
     Thread_created_at := "2024-04-01T09:00:00.000Z" |}.

Definition older_screen : Screen :=
  {| messages := [Scenario.failed_question];
     currentThread := Some older_thread; input := "";
     isLoading := false; error := None;
     session := Some Scenario.session1; systemPrompt := None |}.

End Cases.

(** ** Proof automation *)

(** Unfolds the monad and the wrappers of the outside calls. *)
Ltac run_monad :=
  unfold insert_message, getSession, fetch, response_json, sleep,
    select_messages,
    ChatScreen.setMessages, ChatScreen.setInput, ChatScreen.setIsLoading,
    ChatScreen.setError, MessagesStore.set_messages,
    mbind, M_bind, mret, M_ret, try_catch, try_finally, throw, when,
    call, modify, get_trace, get_state; simpl.

(** ** Theorems: backoff policy *)

Lemma getBackoffDelay_below_cap (attempt : Z) :
  0 <= attempt < 4 -> getBackoffDelay attempt = 2000 * 2 ^ attempt.
Proof.
  intros H. unfold getBackoffDelay, INITIAL_RETRY_DELAY.
  assert (Hc : attempt = 0 \/ attempt = 1 \/ attempt = 2 \/ attempt = 3) by lia.
  destruct Hc as [-> | [-> | [-> | ->]]]; reflexivity.
Qed.

Lemma getBackoffDelay_capped (attempt : Z) :
  4 <= attempt -> getBackoffDelay attempt = 30000.
Proof.
  intros H. unfold getBackoffDelay, INITIAL_RETRY_DELAY.
  assert (Hp : 2 ^ 4 <= 2 ^ attempt) by (apply Z.pow_le_mono_r; lia).
  change (2 ^ 4) with 16 in Hp. lia.
Qed.

Lemma getBackoffDelay_mono (a b : Z) :
  0 <= a <= b -> getBackoffDelay a <= getBackoffDelay b.
Proof.
  intros H. unfold getBackoffDelay, INITIAL_RETRY_DELAY.
  assert (Hp : 2 ^ a <= 2 ^ b) by (apply Z.pow_le_mono_r; lia).
  lia.
Qed.

(** C1: for every attempt in [0, 10] the delay is
    [min (2000 * 2^attempt) 30000]; the delay is non-decreasing in the
    attempt (for all non-negative attempts), it is the uncapped
    [2000 * 2^attempt] below attempt 4 and the constant 30000 from attempt 4
    on. *)
Theorem getBackoffDelay_spec (attempt : Z) :
  0 <= attempt <= 10 ->
  getBackoffDelay attempt = Z.min (2000 * 2 ^ attempt) 30000
  /\ (forall a b, 0 <= a <= b -> getBackoffDelay a <= getBackoffDelay b)
  /\ (attempt < 4 -> getBackoffDelay attempt = 2000 * 2 ^ attempt)
  /\ (forall a, 4 <= a -> getBackoffDelay a = 30000).
Proof.
  intros H. split; [reflexivity|]. split; [apply getBackoffDelay_mono|].
  split; [intros; apply getBackoffDelay_below_cap; lia|].
  apply getBackoffDelay_capped.
Qed.

Lemma getBackoffDelay_spec_witness :
  0 <= 3 <= 10 /\ getBackoffDelay 3 = 16000 /\ getBackoffDelay 4 = 30000
  /\ getBackoffDelay 10 = 30000.
Proof.
  split; [lia|].
  destruct (getBackoffDelay_spec 3 ltac:(lia)) as (H1 & _ & _ & H4).
  split; [rewrite H1; reflexivity|].
  split; [apply H4; lia | apply H4; lia].
Defined.

(** ** Theorems: string helpers *)

Lemma truthy_true (s : string) : Js.truthy s = true <-> s <> "".
Proof. destruct s; simpl; split; intros; congruence. Qed.

Lemma truthy_false (s : string) : Js.truthy s = false <-> s = "".
Proof. destruct s; simpl; split; intros; congruence. Qed.

Lemma trim_all_whitespace (s : string) :
  Js.all_whitespace s = true -> Js.trim s = "".
Proof.
  intros H. unfold Js.trim.
  assert (Hs : Js.trimStart s = "").
  { induction s as [|c s IH]; simpl in *; [reflexivity|].
    apply andb_true_iff in H. destruct H as [Hc Hs].
    rewrite Hc. now apply IH. }
  rewrite Hs. reflexivity.
Qed.

Lemma or_else_truthy (m fallback : string) :
  m <> "" -> Js.or_else (Some m) fallback = m.
Proof. intros H. unfold Js.or_else. apply truthy_true in H. now rewrite H. Qed.

(** ** Theorems: sending a message *)

Import ChatScreen.

Section SendMessage.
Variables (host : Host) (render : Screen) (w : World Screen).

(** C5: with an input that is empty once trimmed, [sendMessage] returns at
    its guard: the world is left as it was, so no message is appended and
    no insert, session lookup or relay request is issued. *)
Theorem sendMessage_blank_input :
  Js.trim (input render) = "" ->
  sendMessage host render w = (Returned tt, w).
Proof.
  intros Hblank. unfold sendMessage. rewrite Hblank. simpl.
  destruct (currentThread render); reflexivity.
Qed.

Variable thread : Thread.
Hypothesis Hthread : currentThread render = Some thread.
Hypothesis Hinput : Js.trim (input render) <> "".
Hypothesis Hidle : isLoading render = false.

Let userMessage : string := Js.trim (input render).
Let newMessage : Message :=
  fresh_message host (trace w) userMessage user thread.
Let t1 : list Event :=
  trace w ++ [EInsert (message_row render (Thread_id thread) userMessage user)].
Let t2 : list Event := t1 ++ [EGetSession].

Variable currentSession : Session.
Hypothesis Huser_saved : db_insert host t1 = None.
Hypothesis Hsession : auth_getSession host t2 = Some currentSession.

Let t3 : list Event :=
  t2 ++ [EFetch (send_request currentSession render userMessage)].

Variable response : Response.
Hypothesis Hfetch : relay_fetch host t3 = FetchResolves response.

(** The world once the guard has passed and the user message has been
    appended. *)
Lemma sendMessage_unfold :
  sendMessage host render w =
  try_finally
    (try_catch (sendMessage_try host render thread userMessage)
       (fun err =>
          setError (Some (if instanceof_Error err then thrown_message err
                          else "Failed to send message"));;
          setMessages (mark_failed (id newMessage))))
    (setIsLoading false)
    (mkWorld
       {| messages := messages (state w) ++ [newMessage];
          currentThread := currentThread (state w); input := "";
          isLoading := true; error := error (state w);
          session := session (state w);
          systemPrompt := systemPrompt (state w) |}
       (storage w) (trace w)).
Proof.
  unfold sendMessage. rewrite Hthread, Hidle.
  apply truthy_true in Hinput. rewrite Hinput. reflexivity.
Qed.

Lemma mark_failed_app (target : string) (xs ys : list Message) :
  mark_failed target (xs ++ ys)
  = mark_failed target xs ++ mark_failed target ys.
Proof. unfold mark_failed. apply map_app. Qed.

Lemma mark_failed_self (m : Message) :
  mark_failed (id m) [m] = [with_failed_pending true false m].
Proof. unfold mark_failed. simpl. now rewrite String.eqb_refl. Qed.

(** C6: a send whose inserts, session lookup and relay request all succeed
    appends exactly two messages to the list, the user's message and then
    the assistant's reply, and ends with the loading indicator cleared; its
    calls are the user insert, the session lookup, the relay request and
    the assistant insert. *)
Theorem sendMessage_success (body : RelayBody) (reply : string) :
  ok response = true ->
  json response = JsonResolves body ->
  body_choices body = FirstMessage (Some reply) ->
  reply <> "" ->
  db_insert host
    (t3 ++ [EInsert (message_row render (Thread_id thread) reply assistant)])
    = None ->
  exists u a w',
    sendMessage host render w = (Returned tt, w')
    /\ messages (state w') = messages (state w) ++ [u; a]
    /\ role u = user /\ content u = userMessage
    /\ role a = assistant /\ content a = reply
    /\ isLoading (state w') = false
    /\ trace w' =
       t3 ++ [EInsert (message_row render (Thread_id thread) reply assistant)].
Proof.
  intros Hok Hjson Hchoices Hreply Hsaved.
  apply truthy_true in Hreply.
  eexists newMessage, _, _.
  rewrite sendMessage_unfold. unfold sendMessage_try. run_monad.
  fold userMessage t1. rewrite Huser_saved. simpl.
  fold t2. rewrite Hsession. simpl.
  fold t3. rewrite Hfetch. simpl. rewrite Hok. simpl.
  rewrite Hjson. simpl. rewrite Hchoices, Hreply. simpl.
  rewrite Hsaved. simpl.
  split; [reflexivity|]. simpl.
  rewrite <- app_assoc. simpl.
  repeat split; reflexivity.
Qed.

(** C4 (amended): a send whose relay response is not 2xx leaves the user's
    message last in the list with [failed = true] and [pending = false],
    appends no assistant message and issues no assistant insert, and sets
    the error to the [message] of the error body when that is a non-empty
    string, otherwise to the text naming the status. *)
Theorem sendMessage_relay_failure :
  ok response = false ->
  exists w',
    sendMessage host render w = (Returned tt, w')
    /\ messages (state w') =
       mark_failed (id newMessage) (messages (state w))
       ++ [with_failed_pending true false newMessage]
    /\ role newMessage = user /\ content newMessage = userMessage
    /\ error (state w') = Some (relay_error_text response)
    /\ (forall m, json response = JsonResolves m ->
        forall text, body_message m = Some text -> text <> "" ->
        error (state w') = Some text)
    /\ isLoading (state w') = false
    /\ trace w' = t3.
Proof.
  intros Hok.
  eexists.
  rewrite sendMessage_unfold. unfold sendMessage_try. run_monad.
  fold userMessage t1. rewrite Huser_saved. simpl.
  fold t2. rewrite Hsession. simpl.
  fold t3. rewrite Hfetch. simpl. rewrite Hok. simpl.
  split; [reflexivity|]. simpl.
  rewrite mark_failed_app.
  change (Js.toString (Date_now host (trace w))) with (id newMessage).
  rewrite mark_failed_self.
  repeat split; try reflexivity.
  intros m Hm text Htext Hne. unfold relay_error_text.
  rewrite Hm, Htext. now rewrite or_else_truthy.
Qed.

End SendMessage.

(** ** Theorems: retrying a message *)

Lemma attempts_made_app (xs ys : list Event) :
  attempts_made (xs ++ ys) = (attempts_made xs + attempts_made ys)%nat.
Proof. induction xs as [|[] xs IH]; simpl; auto. Qed.

Lemma relay_calls_app (xs ys : list Event) :
  relay_calls (xs ++ ys) = (relay_calls xs + relay_calls ys)%nat.
Proof. induction xs as [|[] xs IH]; simpl; auto. Qed.

Lemma sleeps_app (xs ys : list Event) :
  sleeps (xs ++ ys) = sleeps xs ++ sleeps ys.
Proof. induction xs as [|[] xs IH]; simpl; auto. now rewrite IH. Qed.

Lemma inserted_rows_app (xs ys : list Event) :
  inserted_rows (xs ++ ys) = inserted_rows xs ++ inserted_rows ys.
Proof. induction xs as [|[] xs IH]; simpl; auto. now rewrite IH. Qed.

Section RetryMessage.
Variables (host : Host) (render : Screen) (message : Message).

Lemma retryMessage_exhausted_eq (attempt : Z) (w : World Screen) :
  4 <= attempt ->
  retryMessage host render message attempt w =
  retryMessage_exhausted message attempt w.
Proof.
  intros H. simp retryMessage.
  destruct (Z_le_gt_dec 4 attempt); [reflexivity | lia].
Qed.

Lemma retryMessage_step (attempt : Z) (w : World Screen) :
  attempt < 4 ->
  retryMessage host render message attempt w =
  match retryMessage_try host render message attempt (retry_begin w) with
  | (Returned a, w1) => (Returned a, retry_end w1)
  | (Threw _, w1) =>
      let (r, w2) := retryMessage host render message (attempt + 1) w1 in
      (r, retry_end w2)
  end.
Proof.
  intros H. simp retryMessage.
  destruct (Z_le_gt_dec 4 attempt); [lia|]. simpl.
  unfold retry_begin, retry_end. run_monad.
  destruct (retryMessage_try _ _ _ _ _) as [[a|e] w1]; [reflexivity|].
  destruct (retryMessage _ _ _ _ _) as [[a|e'] w2]; reflexivity.
Qed.

(** What one [try] block does: it leaves the storage alone, makes one
    session lookup, sleeps the backoff delay first unless the attempt is
    0, inserts at most the row of [message] itself, and touches the state
    only when it completes, by relabelling the flags of [message]. *)
Lemma retryMessage_try_inv (attempt : Z) (w : World Screen)
    (r : Outcome unit) (w1 : World Screen) :
  retryMessage_try host render message attempt w = (r, w1) ->
  storage w1 = storage w
  /\ exists evs,
       trace w1 = trace w ++ evs
       /\ attempts_made evs = 1%nat
       /\ (relay_calls evs <= 1)%nat
       /\ ((forall t, auth_getSession host t <> None) ->
           relay_calls evs = 1%nat)
       /\ sleeps evs =
          (if 0 <? attempt then [getBackoffDelay attempt] else [])
       /\ Forall (fun row => row = message_row render (thread_id message)
                                     (content message) (role message))
                 (inserted_rows evs)
       /\ match r with
          | Returned _ =>
              state w1 =
              {| messages :=
                   mark_retried false (id message) attempt (messages (state w));
                 currentThread := currentThread (state w);
                 input := input (state w); isLoading := isLoading (state w);
                 error := error (state w); session := session (state w);
                 systemPrompt := systemPrompt (state w) |}
          | Threw _ => state w1 = state w
          end.
Proof.
  unfold retryMessage_try. run_monad. intros H.
  destruct (0 <? attempt) eqn:Hpos; simpl in H;
    repeat (match type of H with
            | context [auth_getSession host ?t] =>
                destruct (auth_getSession host t) eqn:?
            | context [relay_fetch host ?t] =>
                destruct (relay_fetch host t) eqn:?
            | context [ok ?a] => destruct (ok a) eqn:?
            | context [json ?a] => destruct (json a) eqn:?
            | context [body_choices ?a] => destruct (body_choices a) eqn:?
            | context [db_insert host ?t] => destruct (db_insert host t) eqn:?
            end; simpl in H);
    inversion H; subst; clear H; simpl;
    (split; [reflexivity|]); eexists;
    (split; [rewrite <- ?app_assoc; simpl; reflexivity|]); simpl;
    repeat split; auto using Forall_nil, Forall_cons;
    intros Hs; exfalso; eapply Hs; eassumption.
Qed.

Lemma mark_retried_flags (f : bool) (target : string) (n : Z)
    (ms : list Message) (m : Message) :
  In m (mark_retried f target n ms) -> id m = target ->
  failed m = Some f /\ pending m = Some false /\ retryCount m = Some n.
Proof.
  unfold mark_retried. intros Hin Hid.
  apply in_map_iff in Hin. destruct Hin as (msg & Hm & _).
  destruct (String.eqb (id msg) target) eqn:E; subst m.
  - simpl. auto.
  - apply String.eqb_neq in E. contradiction.
Qed.

Lemma mark_retried_keeps (f : bool) (target : string) (n : Z)
    (ms : list Message) (m0 : Message) :
  In m0 ms -> id m0 = target ->
  In (with_failed_pending_retryCount f false n m0) (mark_retried f target n ms).
Proof.
  unfold mark_retried. intros Hin Hid.
  apply in_map_iff. exists m0. split; [|assumption].
  apply String.eqb_eq in Hid. now rewrite Hid.
Qed.

Lemma retry_begin_fields (w : World Screen) :
  messages (state (retry_begin w)) = messages (state w)
  /\ storage (retry_begin w) = storage w
  /\ trace (retry_begin w) = trace w.
Proof. unfold retry_begin. run_monad. auto. Qed.

Lemma retry_end_fields (w : World Screen) :
  messages (state (retry_end w)) = messages (state w)
  /\ error (state (retry_end w)) = error (state w)
  /\ isLoading (state (retry_end w)) = false
  /\ storage (retry_end w) = storage w
  /\ trace (retry_end w) = trace w.
Proof. unfold retry_end. run_monad. repeat split. Qed.

(** When the relay fails whatever the history, every [try] block throws. *)
Lemma retryMessage_try_fails (attempt : Z) (w : World Screen) :
  (forall t, relay_failure (relay_fetch host t) = true) ->
  exists e w1,
    retryMessage_try host render message attempt w = (Threw e, w1).
Proof.
  intros Hfail. unfold retryMessage_try. run_monad.
  destruct (0 <? attempt); simpl;
    (destruct (auth_getSession host _); simpl; [|eauto]);
    match goal with
    | |- context [relay_fetch host ?t] =>
        specialize (Hfail t); destruct (relay_fetch host t) as [e|resp]
    end; simpl; eauto;
    unfold relay_failure in Hfail;
    destruct (ok resp); simpl in *;
    destruct (json resp) as [e|b]; simpl; eauto;
    destruct (body_choices b); simpl; eauto; discriminate.
Qed.

Lemma retryMessage_all_fail (n : nat) :
  (forall t, relay_failure (relay_fetch host t) = true) ->
  forall (attempt : Z) (w : World Screen),
    4 - attempt = Z.of_nat n ->
    exists w' evs,
      retryMessage host render message attempt w = (Returned tt, w')
      /\ trace w' = trace w ++ evs
      /\ attempts_made evs = n
      /\ (relay_calls evs <= n)%nat
      /\ ((forall t, auth_getSession host t <> None) -> relay_calls evs = n)
      /\ sleeps evs = backoff_schedule n attempt
      /\ messages (state w') =
         mark_retried true (id message) 4 (messages (state w))
      /\ error (state w') = Some "Message failed after multiple attempts".
Proof.
  intros Hfail. induction n as [|n IH]; intros attempt w Hn.
  - assert (attempt = 4) by lia. subst attempt.
    rewrite retryMessage_exhausted_eq by lia.
    eexists _, []. unfold retryMessage_exhausted. run_monad.
    rewrite app_nil_r. repeat split. lia.
  - assert (Hlt : attempt < 4) by lia.
    rewrite retryMessage_step by assumption.
    destruct (retryMessage_try_fails attempt (retry_begin w) Hfail)
      as (e & w1 & Htry).
    rewrite Htry.
    apply retryMessage_try_inv in Htry.
    destruct Htry as (_ & evs1 & Ht1 & Ha1 & Hr1 & Hx1 & Hs1 & _ & Hst1).
    destruct (retry_begin_fields w) as (Hm0 & _ & Ht0).
    destruct (IH (attempt + 1) w1 ltac:(lia))
      as (w2 & evs2 & Hrun & Ht2 & Ha2 & Hr2 & Hx2 & Hs2 & Hm2 & He2).
    rewrite Hrun.
    destruct (retry_end_fields w2) as (Hm3 & He3 & _ & _ & Ht3).
    exists (retry_end w2), (evs1 ++ evs2).
    split; [reflexivity|].
    split; [rewrite Ht3, Ht2, Ht1, Ht0; now rewrite app_assoc|].
    split; [rewrite attempts_made_app; lia|].
    split; [rewrite relay_calls_app; lia|].
    split; [intros Hsess; rewrite relay_calls_app, (Hx1 Hsess), (Hx2 Hsess);
            reflexivity|].
    split; [rewrite sleeps_app, Hs1, Hs2; reflexivity|].
    split; [rewrite Hm3, Hm2, Hst1; now rewrite Hm0|].
    now rewrite He3.
Qed.

(** C2: when the relay fails at every request, a retry started at attempt 0
    makes exactly four attempts (sleeping 4000, 8000 and 16000 ms before
    the second, third and fourth; four relay requests when a session is
    always there), then stops at attempt 4: every message with the retried
    id ends with [failed = true], [pending = false] and [retryCount = 4],
    and the error is set. *)
Theorem retryMessage_relay_always_fails (w : World Screen) :
  (forall t, relay_failure (relay_fetch host t) = true) ->
  exists w' evs,
    retryMessage host render message 0 w = (Returned tt, w')
    /\ trace w' = trace w ++ evs
    /\ attempts_made evs = 4%nat
    /\ (relay_calls evs <= 4)%nat
    /\ ((forall t, auth_getSession host t <> None) ->
        relay_calls evs = 4%nat)
    /\ sleeps evs = [4000; 8000; 16000]
    /\ messages (state w') =
       mark_retried true (id message) 4 (messages (state w))
    /\ (forall m, In m (messages (state w')) -> id m = id message ->
        failed m = Some true /\ pending m = Some false
        /\ retryCount m = Some 4)
    /\ (forall m0, In m0 (messages (state w)) -> id m0 = id message ->
        In (with_failed_pending_retryCount true false 4 m0)
           (messages (state w')))
    /\ error (state w') = Some "Message failed after multiple attempts".
Proof.
  intros Hfail.
  destruct (retryMessage_all_fail 4 Hfail 0 w eq_refl)
    as (w' & evs & Hrun & Ht & Ha & Hr & Hx & Hs & Hm & He).
  exists w', evs.
  split; [exact Hrun|]. split; [exact Ht|]. split; [exact Ha|].
  split; [exact Hr|]. split; [exact Hx|]. split; [exact Hs|].
  split; [exact Hm|]. split; [|split; [|exact He]].
  - intros m Hin Hid. rewrite Hm in Hin.
    exact (mark_retried_flags true _ 4 _ m Hin Hid).
  - intros m0 Hin Hid. rewrite Hm. now apply mark_retried_keeps.
Qed.

(** C7: when the attempts before attempt [k] throw and attempt [k]
    completes, the retry returns with every message of the retried id
    relabelled [failed = false], [pending = false], [retryCount = k], and
    it has made [k - attempt + 1] attempts. *)
Theorem retryMessage_success (attempt k : Z) (w w1 : World Screen) :
  retry_run host render message attempt w k w1 ->
  exists w' evs,
    retryMessage host render message attempt w = (Returned tt, w')
    /\ attempt <= k < 4
    /\ trace w' = trace w ++ evs
    /\ attempts_made evs = Z.to_nat (k - attempt + 1)
    /\ messages (state w') =
       mark_retried false (id message) k (messages (state w))
    /\ (forall m, In m (messages (state w')) -> id m = id message ->
        failed m = Some false /\ pending m = Some false
        /\ retryCount m = Some k)
    /\ (forall m0, In m0 (messages (state w)) -> id m0 = id message ->
        In (with_failed_pending_retryCount false false k m0)
           (messages (state w')))
    /\ isLoading (state w') = false.
Proof.
  intros Hrun.
  assert (Hcore : exists w' evs,
    retryMessage host render message attempt w = (Returned tt, w')
    /\ attempt <= k < 4
    /\ trace w' = trace w ++ evs
    /\ attempts_made evs = Z.to_nat (k - attempt + 1)
    /\ messages (state w') =
       mark_retried false (id message) k (messages (state w))
    /\ isLoading (state w') = false).
  { induction Hrun as [attempt w w1 Hlt Htry
                      | attempt w w1 e k w2 Hlt Htry Hrun IH].
    - rewrite retryMessage_step, Htry by assumption.
      apply retryMessage_try_inv in Htry.
      destruct Htry as (_ & evs1 & Ht1 & Ha1 & _ & _ & _ & _ & Hst1).
      destruct (retry_begin_fields w) as (Hm0 & _ & Ht0).
      destruct (retry_end_fields w1) as (Hm3 & _ & Hl3 & _ & Ht3).
      exists (retry_end w1), evs1.
      split; [reflexivity|]. split; [lia|].
      split; [now rewrite Ht3, Ht1, Ht0|].
      split; [rewrite Ha1; replace (attempt - attempt + 1) with 1 by lia;
              reflexivity|].
      split; [rewrite Hm3, Hst1; cbn [messages]; now rewrite Hm0 | assumption].
    - rewrite retryMessage_step, Htry by assumption.
      apply retryMessage_try_inv in Htry.
      destruct Htry as (_ & evs1 & Ht1 & Ha1 & _ & _ & _ & _ & Hst1).
      destruct (retry_begin_fields w) as (Hm0 & _ & Ht0).
      destruct IH as (w' & evs2 & Hret & Hk & Ht2 & Ha2 & Hm2 & _).
      rewrite Hret.
      destruct (retry_end_fields w') as (Hm3 & _ & Hl3 & _ & Ht3).
      exists (retry_end w'), (evs1 ++ evs2).
      split; [reflexivity|]. split; [lia|].
      split; [rewrite Ht3, Ht2, Ht1, Ht0; now rewrite app_assoc|].
      split; [rewrite attempts_made_app, Ha1, Ha2; lia|].
      split; [rewrite Hm3, Hm2, Hst1; now rewrite Hm0 | assumption]. }
  destruct Hcore as (w' & evs & Hret & Hk & Ht & Ha & Hm & Hl).
  exists w', evs.
  split; [exact Hret|]. split; [exact Hk|]. split; [exact Ht|].
  split; [exact Ha|]. split; [exact Hm|]. split; [|split; [|exact Hl]].
  - intros m Hin Hid. rewrite Hm in Hin.
    exact (mark_retried_flags false _ k _ m Hin Hid).
  - intros m0 Hin Hid. rewrite Hm. now apply mark_retried_keeps.
Qed.

End RetryMessage.

(** ** Theorems: every path of the two flows *)

Section Outcomes.
Variables (host : Host) (render : Screen).

(** [sendMessage] always returns, never touches the storage, and ends in
    one of three ways: it returned at its guard; it appended the user
    message and the reply; or it appended the user message and marked it
    failed. *)
Lemma sendMessage_outcome (w : World Screen) :
  exists w' evs,
    sendMessage host render w = (Returned tt, w')
    /\ storage w' = storage w
    /\ trace w' = trace w ++ evs
    /\ ((w' = w /\ evs = [])
        \/ (exists thread reply t,
              currentThread render = Some thread
              /\ messages (state w') =
                 messages (state w)
                 ++ [fresh_message host (trace w) (Js.trim (input render))
                       user thread;
                     fresh_message host t reply assistant thread]
              /\ map row_role (inserted_rows evs) = [user; assistant]
              /\ isLoading (state w') = false)
        \/ (exists thread,
              currentThread render = Some thread
              /\ let u := fresh_message host (trace w)
                            (Js.trim (input render)) user thread in
                 messages (state w') =
                 mark_failed (id u) (messages (state w) ++ [u])
              /\ is_Some (error (state w'))
              /\ isLoading (state w') = false)).
Proof.
  unfold sendMessage.
  destruct (currentThread render) as [thread|] eqn:Hthread;
    [|exists w, []; rewrite app_nil_r; repeat split; auto].
  destruct (negb (Js.truthy (Js.trim (input render))) || isLoading render);
    [exists w, []; rewrite app_nil_r; repeat split; auto|].
  unfold sendMessage_try. run_monad.
  repeat (match goal with
          | |- context [auth_getSession host ?t] =>
              destruct (auth_getSession host t) eqn:?
          | |- context [relay_fetch host ?t] =>
              destruct (relay_fetch host t) eqn:?
          | |- context [ok ?a] => destruct (ok a) eqn:?
          | |- context [json ?a] => destruct (json a) eqn:?
          | |- context [body_choices ?a] =>
              destruct (body_choices a) as [|[?|]] eqn:?
          | |- context [Js.truthy ?a] => destruct (Js.truthy a) eqn:?
          | |- context [db_insert host ?t] => destruct (db_insert host t) eqn:?
          end; simpl);
    do 2 eexists; (split; [reflexivity|]); simpl; (split; [reflexivity|]);
    (split; [rewrite <- ?app_assoc; simpl; reflexivity|]);
    try (right; right; exists thread; simpl;
         repeat split; eauto; fail);
    right; left; exists thread; do 2 eexists; simpl;
    rewrite <- ?app_assoc; simpl; repeat split; reflexivity.
Qed.

(** [retryMessage] always returns, never touches the storage, only
    relabels the flags of the messages with the retried id, and every row
    it inserts is the row of the retried message itself. *)
Lemma retryMessage_outcome (message : Message) (n : nat) :
  forall (attempt : Z) (w : World Screen),
    Z.to_nat (4 - attempt) = n ->
    exists w' evs f k,
      retryMessage host render message attempt w = (Returned tt, w')
      /\ storage w' = storage w
      /\ trace w' = trace w ++ evs
      /\ ((1 <= attempts_made evs)%nat \/ 4 <= attempt)
      /\ messages (state w') =
         mark_retried f (id message) k (messages (state w))
      /\ Forall (fun row => row = message_row render (thread_id message)
                                    (content message) (role message))
                (inserted_rows evs).
Proof.
  induction n as [|n IH]; intros attempt w Hn.
  - rewrite retryMessage_exhausted_eq by lia.
    exists (snd (retryMessage_exhausted message attempt w)), [], true, attempt.
    unfold retryMessage_exhausted. run_monad. rewrite app_nil_r.
    repeat split; auto. right. lia.
  - assert (Hlt : attempt < 4) by lia.
    rewrite retryMessage_step by assumption.
    destruct (retry_begin_fields w) as (Hm0 & Hs0 & Ht0).
    destruct (retryMessage_try host render message attempt (retry_begin w))
      as [[[]|e] w1] eqn:Htry;
      apply retryMessage_try_inv in Htry;
      destruct Htry as (Hs1 & evs1 & Ht1 & Ha1 & _ & _ & _ & Hrows1 & Hst1).
    + destruct (retry_end_fields w1) as (Hm3 & _ & _ & Hs3 & Ht3).
      exists (retry_end w1), evs1, false, attempt.
      split; [reflexivity|].
      split; [now rewrite Hs3, Hs1|].
      split; [now rewrite Ht3, Ht1, Ht0|].
      split; [left; lia|].
      split; [rewrite Hm3, Hst1; cbn [messages]; now rewrite Hm0|assumption].
    + destruct (IH (attempt + 1) w1 ltac:(lia))
        as (w2 & evs2 & f & k & Hret & Hs2 & Ht2 & _ & Hm2 & Hrows2).
      rewrite Hret.
      destruct (retry_end_fields w2) as (Hm3 & _ & _ & Hs3 & Ht3).
      exists (retry_end w2), (evs1 ++ evs2), f, k.
      split; [reflexivity|].
      split; [now rewrite Hs3, Hs2, Hs1|].
      split; [rewrite Ht3, Ht2, Ht1, Ht0; now rewrite app_assoc|].
      split; [left; rewrite attempts_made_app; lia|].
      split; [rewrite Hm3, Hm2, Hst1; now rewrite Hm0|].
      rewrite inserted_rows_app. apply Forall_app. auto.
Qed.

End Outcomes.

(** ** Theorems: the flags of a message *)

Lemma mark_failed_flags (target : string) (ms : list Message) (m : Message) :
  In m (mark_failed target ms) -> id m = target ->
  failed m = Some true /\ pending m = Some false.
Proof.
  unfold mark_failed. intros Hin Hid.
  apply in_map_iff in Hin. destruct Hin as (msg & Hm & _).
  destruct (String.eqb (id msg) target) eqn:E; subst m.
  - simpl. auto.
  - apply String.eqb_neq in E. contradiction.
Qed.

Lemma mark_failed_consistent (target : string) (ms : list Message) :
  Forall (fun m => flags_consistent m = true) ms ->
  Forall (fun m => flags_consistent m = true) (mark_failed target ms).
Proof.
  unfold mark_failed. intros H.
  induction H as [|m ms Hm _ IH]; simpl; constructor; [|exact IH].
  destruct (String.eqb (id m) target); [reflexivity | assumption].
Qed.

Lemma mark_retried_consistent (f : bool) (target : string) (n : Z)
    (ms : list Message) :
  Forall (fun m => flags_consistent m = true) ms ->
  Forall (fun m => flags_consistent m = true) (mark_retried f target n ms).
Proof.
  unfold mark_retried. intros H.
  induction H as [|m ms Hm _ IH]; simpl; constructor; [|exact IH].
  destruct (String.eqb (id m) target); [reflexivity | assumption].
Qed.

Lemma append_fresh_consistent (host : Host) (t : list Event) (c : string)
    (r : Role) (thread : Thread) (ms : list Message) :
  Forall (fun m => flags_consistent m = true) ms ->
  Forall (fun m => flags_consistent m = true)
         (ms ++ [fresh_message host t c r thread]).
Proof.
  intros H. apply Forall_app. split; [assumption|].
  constructor; [reflexivity | constructor].
Qed.

(** C9: if no message of the list has [pending] and [failed] both true,
    the same holds after each write of the delivery and retry flows (the
    optimistic append, the failure transition, the terminal and the
    successful relabelling of a retry, each of which leaves the message it
    relabels with [pending = false]) and hence in the final state of
    [sendMessage] and of [retryMessage]. *)
Theorem delivery_keeps_flags_consistent (host : Host) (render : Screen)
    (message : Message) (attempt : Z) (w : World Screen) :
  Forall (fun m => flags_consistent m = true) (messages (state w)) ->
  (forall t c r thread,
      Forall (fun m => flags_consistent m = true)
             (messages (state w) ++ [fresh_message host t c r thread]))
  /\ (forall target,
      Forall (fun m => flags_consistent m = true)
             (mark_failed target (messages (state w)))
      /\ forall m, In m (mark_failed target (messages (state w))) ->
                   id m = target ->
                   failed m = Some true /\ pending m = Some false)
  /\ (forall f target n,
      Forall (fun m => flags_consistent m = true)
             (mark_retried f target n (messages (state w)))
      /\ forall m, In m (mark_retried f target n (messages (state w))) ->
                   id m = target ->
                   failed m = Some f /\ pending m = Some false)
  /\ Forall (fun m => flags_consistent m = true)
            (messages (state (snd (sendMessage host render w))))
  /\ Forall (fun m => flags_consistent m = true)
            (messages
               (state (snd (retryMessage host render message attempt w)))).
Proof.
  intros Hinv.
  split; [intros; now apply append_fresh_consistent|].
  split; [intros target; split;
          [now apply mark_failed_consistent | apply mark_failed_flags]|].
  split; [intros f target n; split;
          [now apply mark_retried_consistent
          |intros m Hin Hid;
           destruct (mark_retried_flags f target n _ m Hin Hid) as (?&?&?);
           auto]|].
  split.
  - destruct (sendMessage_outcome host render w)
      as (w' & evs & Hret & _ & _ & Hcases).
    rewrite Hret. simpl.
    destruct Hcases as [[-> _] | [(thread & reply & t & _ & Hm & _)
                                 | (thread & _ & Hm & _)]].
    + assumption.
    + rewrite Hm.
      change (?a ++ [?x; ?y]) with (a ++ [x] ++ [y]). rewrite app_assoc.
      now do 2 apply append_fresh_consistent.
    + rewrite Hm. apply mark_failed_consistent.
      now apply append_fresh_consistent.
  - destruct (retryMessage_outcome host render message _ attempt w eq_refl)
      as (w' & evs & f & k & Hret & _ & _ & _ & Hm & _).
    rewrite Hret. simpl. rewrite Hm. now apply mark_retried_consistent.
Qed.

(** ** Theorems: what a retry creates *)

Lemma mark_retried_role (f : bool) (target : string) (n : Z)
    (ms : list Message) :
  map role (mark_retried f target n ms) = map role ms.
Proof.
  unfold mark_retried. induction ms as [|m ms IH]; simpl; [reflexivity|].
  rewrite IH. now destruct (String.eqb (id m) target).
Qed.

(** Whatever the host answers, a retry of [message] leaves the roles of
    the list as they were, so it appends no message, and each row it
    inserts has the role and the content of [message]. *)
Lemma retryMessage_creates_nothing (host : Host) (render : Screen)
    (message : Message) (attempt : Z) (w : World Screen) :
  exists w' evs,
    retryMessage host render message attempt w = (Returned tt, w')
    /\ trace w' = trace w ++ evs
    /\ map role (messages (state w')) = map role (messages (state w))
    /\ Forall (fun row => row_role row = role message
                          /\ row_content row = content message)
              (inserted_rows evs).
Proof.
  destruct (retryMessage_outcome host render message _ attempt w eq_refl)
    as (w' & evs & f & k & Hret & _ & Ht & _ & Hm & Hrows).
  exists w', evs. repeat split; try assumption.
  - rewrite Hm. apply mark_retried_role.
  - induction Hrows as [|row rows Hrow _ IH]; constructor; [|exact IH].
    subst row. split; reflexivity.
Qed.

(** C3, at the failing input: the retry of a failed user message against a
    relay that answers with a reply completes at attempt 0, yet the list
    still holds the user message alone, and the one row written is again
    the user's message: the reply is neither appended nor inserted. *)
Theorem retryMessage_drops_the_reply :
  let host := Scenario.relay_up in
  let render := Scenario.screen_with [Scenario.failed_question] "" in
  let w := Scenario.world_with [Scenario.failed_question] "" in
  let w' := snd (retryMessage host render Scenario.failed_question 0 w) in
  relay_fetch host (trace w') = Scenario.reply_200 "Promissory estoppel is..."
  /\ messages (state w') =
     [with_failed_pending_retryCount false false 0 Scenario.failed_question]
  /\ count_role assistant (messages (state w')) = O
  /\ inserted_rows (trace w') =
     [{| row_content := "What is promissory estoppel?"; row_role := user;
         row_user_id := Some "u1"; row_thread_id := "t1" |}]
  /\ relay_calls (trace w') = 1%nat.
Proof. vm_compute. repeat split; reflexivity. Qed.

(** ** Theorems: coming back online *)

Lemma filter_all_false {A : Type} (f : A -> bool) (l : list A) :
  (forall x, In x l -> f x = false) -> List.filter f l = [].
Proof.
  induction l as [|x l IH]; simpl; intros H; [reflexivity|].
  rewrite (H x) by auto. apply IH. auto.
Qed.

(** Without a key that starts with [pending_message_], the pass over the
    storage does nothing: no retry is invoked. *)
Lemma syncPendingMessages_nothing_queued (host : Host) (render : Screen)
    (w : World Screen) :
  (forall key, key ∈ dom (storage w) ->
               Js.startsWith "pending_message_" key = false) ->
  syncPendingMessages host render w = (Returned tt, w).
Proof.
  intros Hkeys. unfold syncPendingMessages, AsyncStorage.getAllKeys.
  run_monad. rewrite filter_all_false; [reflexivity|].
  intros key Hin. apply Hkeys. apply elem_of_elements.
  now apply list_elem_of_In.
Qed.

(** With one message queued under a key that starts with
    [pending_message_], the pass invokes [retryMessage] for it once, with
    the default attempt, and then removes the key. *)
Lemma syncPendingMessages_retries_queued (host : Host) (render : Screen)
    (s : Screen) (tr : list Event) (key item : string) (message : Message) :
  Js.startsWith "pending_message_" key = true ->
  item <> "" ->
  JSON_parse_message host item = Some message ->
  let w : World Screen := mkWorld s {[key := item]} tr in
  let w' := snd (retryMessage host render message 0 w) in
  syncPendingMessages host render w
  = (Returned tt, mkWorld (state w') ∅ (trace w')).
Proof.
  intros Hprefix Hitem Hparse w w'.
  unfold syncPendingMessages, AsyncStorage.getAllKeys. run_monad.
  rewrite dom_singleton_L, elements_singleton. simpl.
  rewrite Hprefix. simpl.
  unfold AsyncStorage.getItem, AsyncStorage.removeItem. run_monad.
  rewrite lookup_singleton_eq, (or_else_truthy item "" Hitem), Hparse.
  fold w. subst w'.
  destruct (retryMessage_outcome host render message _ 0 w eq_refl)
    as (w1 & evs & f & k & -> & Hs & _).
  simpl. rewrite Hs. simpl. now rewrite delete_singleton_eq.
Qed.

(** Neither flow writes to the storage, so neither queues a message. *)
Lemma delivery_never_queues (host : Host) (render : Screen)
    (message : Message) (attempt : Z) (w : World Screen) :
  storage (snd (sendMessage host render w)) = storage w
  /\ storage (snd (retryMessage host render message attempt w)) = storage w.
Proof.
  split.
  - destruct (sendMessage_outcome host render w) as (w' & evs & -> & Hs & _).
    exact Hs.
  - destruct (retryMessage_outcome host render message _ attempt w eq_refl)
      as (w' & evs & f & k & -> & Hs & _).
    exact Hs.
Qed.

(** A retry invoked with the default attempt always leaves a session
    lookup in the trace. *)
Lemma retryMessage_leaves_a_trace (host : Host) (render : Screen)
    (message : Message) (w : World Screen) :
  trace (snd (retryMessage host render message 0 w)) <> trace w.
Proof.
  destruct (retryMessage_outcome host render message _ 0 w eq_refl)
    as (w' & evs & f & k & -> & _ & Ht & [Ha | Hge] & _); [|lia].
  simpl. rewrite Ht. intros Heq.
  assert (Hnil : evs = []).
  { apply (f_equal (@length Event)) in Heq. rewrite length_app in Heq.
    destruct evs; [reflexivity | simpl in Heq; lia]. }
  subst evs. simpl in Ha. lia.
Qed.

(** C8, at the failing input: a send made while the relay is unreachable
    leaves the user message marked failed; when the network store then
    goes from offline to online, the effect runs its pass over the storage,
    finds no queued key and returns: the world is unchanged, so no retry
    was invoked for the failed message. *)
Theorem failed_message_not_retried_on_reconnect :
  let host := Scenario.relay_down in
  let render := Scenario.asking in
  let w := snd (sendMessage host render Scenario.asking_world) in
  let offline := NetworkStore.setIsOnline false NetworkStore.initial in
  let online := NetworkStore.listener (Some true) offline in
  map (fun m => (content m, failed m, pending m)) (messages (state w))
    = [("What is promissory estoppel?", Some true, Some false)]
  /\ NetworkStore.isOnline offline = false
  /\ NetworkStore.isOnline online = true
  /\ on_network_update host (state w) offline online w = (Returned tt, w).
Proof. vm_compute. repeat split; reflexivity. Qed.

(** ** Theorems: the message store and its cache keys *)

Section MessagesStoreCache.
Variable host : Host.

Lemma thread_cache_key_not_constant (t : string) :
  MessagesStore.thread_cache_key t <> "cached_messages".
Proof.
  unfold MessagesStore.thread_cache_key. intros H.
  vm_compute in H. discriminate H.
Qed.

(** The storage after the write, if any, that [syncMessages] makes. *)
Let updated (key : string) (upd : option string) (σ : gmap string string)
  : gmap string string :=
  match upd with
  | Some v => <[key := v]> σ
  | None => σ
  end.

(** [syncMessages t] reads the storage at [cached_messages_<t>] only: on
    two storages that agree there it returns the same outcome, state and
    trace, and makes the same write. *)
Lemma syncMessages_reads_its_key (t : string) (s : MessagesStore.Store)
    (σ1 σ2 : gmap string string) (tr : list Event) :
  σ1 !! MessagesStore.thread_cache_key t
    = σ2 !! MessagesStore.thread_cache_key t ->
  exists r s' tr' upd,
    MessagesStore.syncMessages host t (mkWorld s σ1 tr)
      = (r,
         mkWorld s' (updated (MessagesStore.thread_cache_key t) upd σ1) tr')
    /\ MessagesStore.syncMessages host t (mkWorld s σ2 tr)
      = (r,
         mkWorld s' (updated (MessagesStore.thread_cache_key t) upd σ2) tr').
Proof.
  intros Hkey.
  unfold MessagesStore.syncMessages, AsyncStorage.getItem, AsyncStorage.setItem.
  run_monad. rewrite <- Hkey.
  destruct (σ1 !! MessagesStore.thread_cache_key t) as [c|]; simpl.
  - destruct (Js.truthy c); simpl.
    + destruct (JSON_parse host c); simpl.
      * destruct (db_select host _) as [[data|] [e|]]; simpl;
          try (eexists _, _, _, None; split; reflexivity).
        destruct (setItem_rejects host _ _); simpl;
          [eexists _, _, _, None | eexists _, _, _, (Some _)];
          split; reflexivity.
      * eexists _, _, _, None; split; reflexivity.
    + destruct (db_select host _) as [[data|] [e|]]; simpl;
        try (eexists _, _, _, None; split; reflexivity).
      destruct (setItem_rejects host _ _); simpl;
        [eexists _, _, _, None | eexists _, _, _, (Some _)];
        split; reflexivity.
  - destruct (db_select host _) as [[data|] [e|]]; simpl;
      try (eexists _, _, _, None; split; reflexivity).
    destruct (setItem_rejects host _ _); simpl;
      [eexists _, _, _, None | eexists _, _, _, (Some _)];
      split; reflexivity.
Qed.

(** C10: [setMessages ms] changes the storage at most at the constant key
    [cached_messages] and leaves every key [cached_messages_<t>] as it was;
    [syncMessages t] depends on the storage through [cached_messages_<t>]
    alone; hence a [syncMessages t] that follows [setMessages ms] ends in
    the state and trace it would have reached had the snapshot not been
    cached at all, whatever the thread. *)
Theorem setMessages_cache_unseen_by_syncMessages (t : string)
    (ms : list Message) (w : World MessagesStore.Store) :
  let w1 := snd (MessagesStore.setMessages host ms w) in
  let key := MessagesStore.thread_cache_key t in
  MessagesStore.messages (state w1) = ms
  /\ (storage w1 = <["cached_messages" := JSON_stringify host ms]> (storage w)
      \/ storage w1 = storage w)
  /\ (forall k, k <> "cached_messages" -> storage w1 !! k = storage w !! k)
  /\ (forall t', storage w1 !! MessagesStore.thread_cache_key t'
                 = storage w !! MessagesStore.thread_cache_key t')
  /\ (forall σ, σ !! key = storage w1 !! key ->
        let a := MessagesStore.syncMessages host t
                   (mkWorld (state w1) σ (trace w1)) in
        let b := MessagesStore.syncMessages host t w1 in
        fst a = fst b /\ state (snd a) = state (snd b)
        /\ trace (snd a) = trace (snd b))
  /\ (let a := MessagesStore.syncMessages host t w1 in
      let b := MessagesStore.syncMessages host t
                 (mkWorld (state w1) (storage w) (trace w1)) in
      fst a = fst b /\ state (snd a) = state (snd b)
      /\ trace (snd a) = trace (snd b)
      /\ storage (snd a) !! key = storage (snd b) !! key).
Proof.
  intros w1 key.
  assert (Hw1 : MessagesStore.messages (state w1) = ms
                /\ trace w1 = trace w
                /\ (storage w1 =
                    <["cached_messages" := JSON_stringify host ms]> (storage w)
                    \/ storage w1 = storage w)).
  { unfold w1, MessagesStore.setMessages, AsyncStorage.setItem. run_monad.
    destruct (setItem_rejects host _ _); simpl; auto. }
  destruct Hw1 as (Hms & Htr & Hst).
  assert (Hother : forall k, k <> "cached_messages" ->
                             storage w1 !! k = storage w !! k).
  { intros k Hk. destruct Hst as [-> | ->]; [|reflexivity].
    now apply lookup_insert_ne. }
  assert (Hkeys : forall t', storage w1 !! MessagesStore.thread_cache_key t'
                             = storage w !! MessagesStore.thread_cache_key t').
  { intros t'. apply Hother. apply thread_cache_key_not_constant. }
  split; [exact Hms|]. split; [exact Hst|]. split; [exact Hother|].
  split; [exact Hkeys|]. split.
  - intros σ Hσ.
    destruct (syncMessages_reads_its_key t (state w1) σ (storage w1)
                (trace w1) Hσ) as (r & s' & tr' & upd & Ha & Hb).
    replace (mkWorld (state w1) (storage w1) (trace w1)) with w1 in Hb
      by now destruct w1.
    cbv zeta. rewrite Ha, Hb. simpl. auto.
  - destruct (syncMessages_reads_its_key t (state w1) (storage w1) (storage w)
                (trace w1) (Hkeys t)) as (r & s' & tr' & upd & Ha & Hb).
    replace (mkWorld (state w1) (storage w1) (trace w1)) with w1 in Ha
      by now destruct w1.
    cbv zeta. rewrite Ha, Hb. simpl. repeat split.
    fold key. destruct upd as [v|]; simpl.
    + now rewrite !lookup_insert_eq.
    + apply Hkeys.
Qed.

End MessagesStoreCache.

(** ** Concrete runs *)

Lemma sendMessage_blank_input_witness :
  Js.trim "   " = ""
  /\ sendMessage Scenario.relay_up (Scenario.screen_with [] "   ")
       (Scenario.world_with [] "   ")
     = (Returned tt, Scenario.world_with [] "   ").
Proof.
  split; [reflexivity|].
  apply sendMessage_blank_input. reflexivity.
Defined.

Lemma sendMessage_success_witness :
  exists u a w',
    sendMessage Scenario.relay_up
      Scenario.asking
      Scenario.asking_world
    = (Returned tt, w')
    /\ messages (state w') = [u; a]
    /\ role u = user /\ content u = "What is promissory estoppel?"
    /\ role a = assistant /\ content a = "Promissory estoppel is..."
    /\ isLoading (state w') = false.
Proof.
  edestruct (sendMessage_success Scenario.relay_up
               Scenario.asking
               Scenario.asking_world Scenario.thread1)
    as (u & a & w' & Hret & Hm & Hu & Hcu & Ha & Hca & Hl & _);
    [reflexivity | discriminate | reflexivity | reflexivity | reflexivity
    | reflexivity | reflexivity | reflexivity | reflexivity | discriminate
    | reflexivity |].
  exists u, a, w'. repeat split; assumption.
Defined.

Lemma sendMessage_relay_failure_witness :
  exists w',
    sendMessage (Scenario.relay_500 (Some "rate limited"))
      Scenario.asking
      Scenario.asking_world
    = (Returned tt, w')
    /\ map (fun m => (role m, failed m, pending m)) (messages (state w'))
       = [(user, Some true, Some false)]
    /\ error (state w') = Some "rate limited".
Proof.
  edestruct (sendMessage_relay_failure
               (Scenario.relay_500 (Some "rate limited"))
               Scenario.asking
               Scenario.asking_world Scenario.thread1)
    as (w' & Hret & Hm & _ & _ & He & _);
    [reflexivity | discriminate | reflexivity | reflexivity | reflexivity
    | reflexivity | reflexivity |].
  exists w'. split; [exact Hret|]. split; [rewrite Hm; reflexivity | exact He].
Defined.

(** C4, as stated, fails: a relay that answers HTTP 500 with the body
    [{message: ""}], or with a body without [message], surfaces the text
    naming the status, which is not the [message] of the body. *)
Lemma sendMessage_error_is_not_the_body_message :
  let render := Scenario.asking in
  let w := Scenario.asking_world in
  let empty := snd (sendMessage (Scenario.relay_500 (Some "")) render w) in
  let absent := snd (sendMessage (Scenario.relay_500 None) render w) in
  relay_fetch (Scenario.relay_500 (Some "")) (trace empty)
    = Scenario.error_500 (Some "")
  /\ error (state empty) = Some "AI request failed with status 500"
  /\ error (state empty) <> Some ""
  /\ relay_fetch (Scenario.relay_500 None) (trace absent)
     = Scenario.error_500 None
  /\ error (state absent) = Some "AI request failed with status 500"
  /\ error (state absent) <> None.
Proof. vm_compute. repeat split; try reflexivity; discriminate. Qed.

Lemma retryMessage_relay_always_fails_witness :
  exists w' evs,
    retryMessage Scenario.relay_down
      (Scenario.screen_with [Scenario.failed_question] "")
      Scenario.failed_question 0
      (Scenario.world_with [Scenario.failed_question] "")
    = (Returned tt, w')
    /\ trace w' = evs
    /\ attempts_made evs = 4%nat
    /\ sleeps evs = [4000; 8000; 16000]
    /\ messages (state w') =
       [with_failed_pending_retryCount true false 4 Scenario.failed_question].
Proof.
  destruct (retryMessage_relay_always_fails Scenario.relay_down
              (Scenario.screen_with [Scenario.failed_question] "")
              Scenario.failed_question
              (Scenario.world_with [Scenario.failed_question] ""))
    as (w' & evs & Hret & Ht & Ha & _ & _ & Hs & Hm & _);
    [intros t; reflexivity|].
  exists w', evs. repeat split; assumption.
Defined.

Lemma retryMessage_success_witness :
  exists w' evs,
    retryMessage Scenario.relay_flaky
      (Scenario.screen_with [Scenario.failed_question] "")
      Scenario.failed_question 0
      (Scenario.world_with [Scenario.failed_question] "")
    = (Returned tt, w')
    /\ trace w' = evs
    /\ attempts_made evs = 3%nat
    /\ messages (state w') =
       [with_failed_pending_retryCount false false 2 Scenario.failed_question].
Proof.
  edestruct (retryMessage_success Scenario.relay_flaky
              (Scenario.screen_with [Scenario.failed_question] "")
              Scenario.failed_question 0 2
              (Scenario.world_with [Scenario.failed_question] ""))
    as (w' & evs & Hret & _ & Ht & Ha & Hm & _).
  - eapply retry_run_failure; [lia | vm_compute; reflexivity |].
    eapply retry_run_failure; [lia | vm_compute; reflexivity |].
    apply retry_run_success; [lia | vm_compute; reflexivity].
  - exists w', evs. repeat split; assumption.
Defined.

Lemma delivery_keeps_flags_consistent_witness :
  Forall (fun m => flags_consistent m = true) [Scenario.failed_question]
  /\ Forall (fun m => flags_consistent m = true)
       (messages (state (snd (retryMessage Scenario.relay_flaky
          (Scenario.screen_with [Scenario.failed_question] "")
          Scenario.failed_question 0
          (Scenario.world_with [Scenario.failed_question] ""))))).
Proof.
  assert (H : Forall (fun m => flags_consistent m = true)
                [Scenario.failed_question])
    by (constructor; [reflexivity | constructor]).
  split; [exact H|].
  apply (delivery_keeps_flags_consistent Scenario.relay_flaky
           (Scenario.screen_with [Scenario.failed_question] "")
           Scenario.failed_question 0
           (Scenario.world_with [Scenario.failed_question] "") H).
Defined.

(** * Further properties of the code *)

(** ** The backoff delay *)

(** X1: for a non-negative attempt the delay lies between 2 and 30
    seconds, and it doubles from one attempt to the next as long as the
    next attempt is at most 3. *)
Theorem getBackoffDelay_bounds_and_doubling (attempt : Z) :
  0 <= attempt ->
  2000 <= getBackoffDelay attempt <= 30000
  /\ (attempt <= 2 ->
      getBackoffDelay (attempt + 1) = 2 * getBackoffDelay attempt).
Proof.
  intros H. split.
  - unfold getBackoffDelay, INITIAL_RETRY_DELAY.
    assert (Hp : 2 ^ 0 <= 2 ^ attempt) by (apply Z.pow_le_mono_r; lia).
    change (2 ^ 0) with 1 in Hp. lia.
  - intros Hle.
    rewrite !getBackoffDelay_below_cap by lia.
    rewrite Z.pow_add_r by lia. lia.
Qed.

Lemma getBackoffDelay_bounds_and_doubling_witness :
  0 <= 2
  /\ 2000 <= getBackoffDelay 2 <= 30000
  /\ getBackoffDelay (2 + 1) = 2 * getBackoffDelay 2.
Proof.
  split; [lia|].
  destruct (getBackoffDelay_bounds_and_doubling 2 ltac:(lia)) as [Hb Hd].
  split; [exact Hb | apply Hd; lia].
Defined.

(** ** The failure paths of a send *)

Section SendFailures.
Variables (host : Host) (render : Screen) (w : World Screen).
Variable thread : Thread.
Hypothesis Hthread : currentThread render = Some thread.
Hypothesis Hinput : Js.trim (input render) <> "".
Hypothesis Hidle : isLoading render = false.

Let userMessage : string := Js.trim (input render).
Let user_insert : Event :=
  EInsert (message_row render (Thread_id thread) userMessage user).

(** X2: when the insert of the user message is refused, the send stops
    there: the only call made is that insert (no session lookup, no relay
    request), the message is marked failed and the error reads
    [Failed to save user message: <message of the database error>]. *)
Theorem sendMessage_user_insert_refused (e : Thrown) :
  db_insert host (trace w ++ [user_insert]) = Some e ->
  exists w',
    sendMessage host render w = (Returned tt, w')
    /\ send_failed host render thread w w'
         ("Failed to save user message: " +:+ thrown_message e)
         [user_insert].
Proof.
  intros Hrefused. eexists.
  rewrite (sendMessage_unfold host render w thread Hthread Hinput Hidle).
  unfold sendMessage_try. run_monad.
  fold userMessage user_insert. rewrite Hrefused. simpl.
  split; [reflexivity|]. unfold send_failed. simpl.
  rewrite mark_failed_app.
  change (Js.toString (Date_now host (trace w)))
    with (id (fresh_message host (trace w) userMessage user thread)).
  rewrite mark_failed_self. repeat split.
Qed.

Hypothesis Huser_saved : db_insert host (trace w ++ [user_insert]) = None.

(** X3: when the user message is saved but there is no session, the
    relay is not called: the calls are the insert and the session lookup,
    the message is marked failed and the error is [No active session]. *)
Theorem sendMessage_no_session :
  auth_getSession host (trace w ++ [user_insert; EGetSession]) = None ->
  exists w',
    sendMessage host render w = (Returned tt, w')
    /\ send_failed host render thread w w' "No active session"
         [user_insert; EGetSession].
Proof.
  intros Hnone. eexists.
  rewrite (sendMessage_unfold host render w thread Hthread Hinput Hidle).
  unfold sendMessage_try. run_monad.
  fold userMessage user_insert. rewrite Huser_saved. simpl.
  rewrite <- app_assoc. simpl. rewrite Hnone. simpl.
  split; [reflexivity|]. unfold send_failed. simpl.
  rewrite mark_failed_app.
  change (Js.toString (Date_now host (trace w)))
    with (id (fresh_message host (trace w) userMessage user thread)).
  rewrite mark_failed_self. repeat split.
Qed.

Variable currentSession : Session.
Hypothesis Hsession :
  auth_getSession host (trace w ++ [user_insert; EGetSession])
  = Some currentSession.

Let relay_request : Event :=
  EFetch (send_request currentSession render userMessage).
Let calls : list Event := [user_insert; EGetSession; relay_request].

(** The send up to the answer of the relay. *)
Lemma sendMessage_until_relay :
  sendMessage host render w =
  try_finally
    (try_catch
       (mbind
          (fun response : Response =>
             (if negb (ok response)
              then throw (new_Error (relay_error_text response))
              else mret tt);;
             aiResponse ← response_json response;
             match body_choices aiResponse with
             | FirstMessage (Some assistantMessage) =>
                 if Js.truthy assistantMessage then
                   assistantError ← insert_message host
                     (message_row render (Thread_id thread) assistantMessage
                        assistant);
                   match assistantError with
                   | Some e => throw e
                   | None => mret tt
                   end;;
                   t ← get_trace;
                   setMessages (fun currentMessages =>
                     currentMessages
                     ++ [fresh_message host t assistantMessage assistant
                           thread])
                 else throw (new_Error "Invalid AI response format")
             | _ => throw (new_Error "Invalid AI response format")
             end)
          (match relay_fetch host (trace w ++ calls) with
           | FetchRejects e => throw e
           | FetchResolves r => mret r
           end))
       (fun err =>
          setError (Some (surfaced_text err));;
          setMessages
            (mark_failed
               (id (fresh_message host (trace w) userMessage user thread)))))
    (setIsLoading false)
    (mkWorld
       {| messages :=
            messages (state w)
            ++ [fresh_message host (trace w) userMessage user thread];
          currentThread := currentThread (state w); input := "";
          isLoading := true; error := error (state w);
          session := session (state w);
          systemPrompt := systemPrompt (state w) |}
       (storage w) (trace w ++ calls)).
Proof.
  rewrite (sendMessage_unfold host render w thread Hthread Hinput Hidle).
  unfold sendMessage_try, surfaced_text. run_monad.
  fold userMessage user_insert. rewrite Huser_saved. simpl.
  assert (Ht : (trace w ++ [user_insert]) ++ [EGetSession]
               = trace w ++ [user_insert; EGetSession])
    by now rewrite <- app_assoc.
  rewrite Ht, Hsession. simpl.
  assert (Hc : (trace w ++ [user_insert; EGetSession]) ++ [relay_request]
               = trace w ++ calls)
    by (unfold calls; now rewrite <- app_assoc).
  fold relay_request. rewrite Hc.
  destruct (relay_fetch host (trace w ++ calls)); reflexivity.
Qed.

Ltac finish_failed :=
  split; [reflexivity|]; unfold send_failed; simpl;
  rewrite mark_failed_app;
  change (Js.toString (Date_now host (trace w)))
    with (id (fresh_message host (trace w) userMessage user thread));
  rewrite mark_failed_self; repeat split.

(** X4: when the relay request itself is rejected (no connection), the
    message is marked failed and the error is the message of the rejection
    when that is an [Error], and [Failed to send message] otherwise; no
    assistant row is written. *)
Theorem sendMessage_request_rejected (e : Thrown) :
  relay_fetch host (trace w ++ calls) = FetchRejects e ->
  exists w',
    sendMessage host render w = (Returned tt, w')
    /\ send_failed host render thread w w' (surfaced_text e) calls.
Proof.
  intros Hrej. eexists. rewrite sendMessage_until_relay, Hrej.
  run_monad. finish_failed.
Qed.

(** X5: a 2xx answer without a usable reply (no first choice, no
    message, or a missing or empty content) is a failure: the message is
    marked failed with the error [Invalid AI response format], and no
    assistant row is written; a 2xx answer whose body does not parse
    surfaces the parse error in the same way. *)
Theorem sendMessage_reply_unusable (response : Response) :
  relay_fetch host (trace w ++ calls) = FetchResolves response ->
  ok response = true ->
  (forall body, json response = JsonResolves body -> usable_reply body = None) ->
  exists w',
    sendMessage host render w = (Returned tt, w')
    /\ send_failed host render thread w w'
         (match json response with
          | JsonRejects e => surfaced_text e
          | JsonResolves _ => "Invalid AI response format"
          end)
         calls.
Proof.
  intros Hres Hok Hbody. rewrite sendMessage_until_relay, Hres.
  run_monad. rewrite Hok. simpl.
  destruct (json response) as [e|body] eqn:Hjson; simpl.
  - eexists. finish_failed.
  - specialize (Hbody body eq_refl). unfold usable_reply in Hbody.
    destruct (body_choices body) as [|[c|]]; simpl.
    + eexists. finish_failed.
    + destruct (Js.truthy c); [discriminate|]. simpl.
      eexists. finish_failed.
    + eexists. finish_failed.
Qed.

(** X6: when the relay has answered with a usable reply but the insert
    of the assistant row is refused, the reply is dropped: no assistant
    message is appended, the user message is marked failed, and the error
    is the message of the database error when that is an [Error], and
    [Failed to send message] otherwise. *)
Theorem sendMessage_reply_not_saved (response : Response) (body : RelayBody)
    (reply : string) (e : Thrown) :
  relay_fetch host (trace w ++ calls) = FetchResolves response ->
  ok response = true ->
  json response = JsonResolves body ->
  usable_reply body = Some reply ->
  db_insert host
    (trace w ++ calls
     ++ [EInsert (message_row render (Thread_id thread) reply assistant)])
  = Some e ->
  exists w',
    sendMessage host render w = (Returned tt, w')
    /\ send_failed host render thread w w' (surfaced_text e)
         (calls
          ++ [EInsert (message_row render (Thread_id thread) reply assistant)]).
Proof.
  intros Hres Hok Hjson Hreply Hrefused.
  rewrite sendMessage_until_relay, Hres.
  run_monad. rewrite Hok. simpl. rewrite Hjson. simpl.
  unfold usable_reply in Hreply.
  destruct (body_choices body) as [|[c|]]; try discriminate.
  destruct (Js.truthy c) eqn:Hc; [|discriminate].
  injection Hreply as ->. simpl.
  rewrite <- app_assoc. rewrite Hrefused. simpl.
  eexists. finish_failed.
Qed.

End SendFailures.

(** ** What a send does on every path *)

Lemma mark_failed_key (target : string) (ms : list Message) :
  map message_key (mark_failed target ms) = map message_key ms.
Proof.
  unfold mark_failed. induction ms as [|m ms IH]; simpl; [reflexivity|].
  rewrite IH. now destruct (String.eqb (id m) target).
Qed.

Lemma mark_retried_key (f : bool) (target : string) (n : Z)
    (ms : list Message) :
  map message_key (mark_retried f target n ms) = map message_key ms.
Proof.
  unfold mark_retried. induction ms as [|m ms IH]; simpl; [reflexivity|].
  rewrite IH. now destruct (String.eqb (id m) target).
Qed.

Lemma sendMessage_calls (host : Host) (render : Screen) (w : World Screen) :
  exists w' evs,
    sendMessage host render w = (Returned tt, w')
    /\ trace w' = trace w ++ evs
    /\ (relay_calls evs <= 1)%nat
    /\ (attempts_made evs <= 1)%nat
    /\ (length (inserted_rows evs) <= 2)%nat
    /\ sleeps evs = []
    /\ (forall req, In (EFetch req) evs ->
        exists cs, req = send_request cs render (Js.trim (input render)))
    /\ (w' = w \/ (input (state w') = "" /\ isLoading (state w') = false)).
Proof.
  unfold sendMessage.
  destruct (currentThread render) as [thread|] eqn:Hthread;
    [|exists w, []; rewrite app_nil_r; simpl;
      repeat split; auto; intros ? []].
  destruct (negb (Js.truthy (Js.trim (input render))) || isLoading render);
    [exists w, []; rewrite app_nil_r; simpl;
     repeat split; auto; intros ? []|].
  unfold sendMessage_try. run_monad.
  repeat (match goal with
          | |- context [auth_getSession host ?t] =>
              destruct (auth_getSession host t) eqn:?
          | |- context [relay_fetch host ?t] =>
              destruct (relay_fetch host t) eqn:?
          | |- context [ok ?a] => destruct (ok a) eqn:?
          | |- context [json ?a] => destruct (json a) eqn:?
          | |- context [body_choices ?a] =>
              destruct (body_choices a) as [|[?|]] eqn:?
          | |- context [Js.truthy ?a] => destruct (Js.truthy a) eqn:?
          | |- context [db_insert host ?t] => destruct (db_insert host t) eqn:?
          end; simpl);
    do 2 eexists; (split; [reflexivity|]); simpl;
    (split; [rewrite <- ?app_assoc; simpl; reflexivity|]); simpl;
    repeat split; auto;
    intros req Hin; simpl in Hin;
    repeat (destruct Hin as [Hin|Hin]; [try discriminate|]);
    try contradiction; injection Hin as <-; eauto.
Qed.

(** X7: on every path a send returns (it never throws), leaves the
    storage alone, and issues at most one session lookup, at most one
    relay request, at most two inserts and no sleep; a relay request it
    issues carries the trimmed input as prompt and the list of the render
    as context.  Unless it returned at its guard it ends with the input
    cleared and the loading indicator off.  The messages already in the
    list keep their place and content, and at most two are appended. *)
Theorem sendMessage_on_every_path (host : Host) (render : Screen)
    (w : World Screen) :
  exists w' evs tail,
    sendMessage host render w = (Returned tt, w')
    /\ storage w' = storage w
    /\ trace w' = trace w ++ evs
    /\ (relay_calls evs <= 1)%nat
    /\ (attempts_made evs <= 1)%nat
    /\ (length (inserted_rows evs) <= 2)%nat
    /\ sleeps evs = []
    /\ (forall req, In (EFetch req) evs ->
        exists cs, req = send_request cs render (Js.trim (input render)))
    /\ (w' = w \/ (input (state w') = "" /\ isLoading (state w') = false))
    /\ map message_key (messages (state w'))
       = map message_key (messages (state w)) ++ map message_key tail
    /\ (length tail <= 2)%nat.
Proof.
  destruct (sendMessage_calls host render w)
    as (w' & evs & Hret & Ht & Hr & Ha & Hi & Hs & Hreq & Hend).
  destruct (sendMessage_outcome host render w)
    as (w2 & evs2 & Hret2 & Hst & _ & Hcases).
  rewrite Hret in Hret2. injection Hret2 as <-.
  assert (Htail : exists tail,
    map message_key (messages (state w'))
    = map message_key (messages (state w)) ++ map message_key tail
    /\ (length tail <= 2)%nat).
  { destruct Hcases as [[-> _] | [(thread & reply & t & _ & Hm & _)
                                 | (thread & _ & Hm & _)]].
    - exists []. simpl. rewrite app_nil_r. auto.
    - eexists [_; _]. rewrite Hm, map_app. auto.
    - eexists [_]. rewrite Hm, mark_failed_key, map_app. auto. }
  destruct Htail as (tail & Hkey & Hlen).
  exists w', evs, tail. repeat split; assumption.
Qed.

(** ** What a retry does on every path *)

Lemma mark_retried_other (f : bool) (target : string) (n : Z)
    (ms : list Message) (i : nat) (m : Message) :
  ms !! i = Some m -> id m <> target ->
  mark_retried f target n ms !! i = Some m.
Proof.
  unfold mark_retried. intros Hi Hid.
  rewrite list_lookup_fmap, Hi. simpl.
  apply String.eqb_neq in Hid. now rewrite Hid.
Qed.

(** X8: whatever the host answers, a retry returns (its promise never
    rejects), leaves the storage alone, changes nothing in the list but
    the three delivery flags, and leaves every message with another id
    exactly as it was, at its place. *)
Theorem retryMessage_only_relabels (host : Host) (render : Screen)
    (message : Message) (attempt : Z) (w : World Screen) :
  exists w',
    retryMessage host render message attempt w = (Returned tt, w')
    /\ storage w' = storage w
    /\ map message_key (messages (state w'))
       = map message_key (messages (state w))
    /\ (forall (i : nat) (m : Message),
          messages (state w) !! i = Some m -> id m <> id message ->
          messages (state w') !! i = Some m).
Proof.
  destruct (retryMessage_outcome host render message _ attempt w eq_refl)
    as (w' & evs & f & k & Hret & Hs & _ & _ & Hm & _).
  exists w'. split; [exact Hret|]. split; [exact Hs|].
  rewrite Hm. split; [apply mark_retried_key|].
  intros i m Hi Hid. now apply mark_retried_other.
Qed.

Section RetryEffort.
Variables (host : Host) (render : Screen) (message : Message).

Let row : InsertRow :=
  message_row render (thread_id message) (content message) (role message).

(** One [try] block inserts the row of the message at most once, and
    exactly once when it completes. *)
Lemma retryMessage_try_rows (attempt : Z) (w : World Screen)
    (r : Outcome unit) (w1 : World Screen) :
  retryMessage_try host render message attempt w = (r, w1) ->
  exists evs,
    trace w1 = trace w ++ evs
    /\ (inserted_rows evs = [] \/ inserted_rows evs = [row])
    /\ (forall a, r = Returned a -> inserted_rows evs = [row]).
Proof.
  unfold retryMessage_try. run_monad. intros H.
  destruct (0 <? attempt) eqn:Hpos; simpl in H;
    repeat (match type of H with
            | context [auth_getSession host ?t] =>
                destruct (auth_getSession host t) eqn:?
            | context [relay_fetch host ?t] =>
                destruct (relay_fetch host t) eqn:?
            | context [ok ?a] => destruct (ok a) eqn:?
            | context [json ?a] => destruct (json a) eqn:?
            | context [body_choices ?a] => destruct (body_choices a) eqn:?
            | context [db_insert host ?t] => destruct (db_insert host t) eqn:?
            end; simpl in H);
    inversion H; subst; clear H; simpl;
    eexists;
    (split; [rewrite <- ?app_assoc; simpl; reflexivity|]); simpl;
    (split; [auto|]); intros a Ha; try discriminate; reflexivity.
Qed.

Lemma retryMessage_effort (n : nat) :
  forall (attempt : Z) (w : World Screen),
    Z.to_nat (4 - attempt) = n ->
    exists w' evs j,
      retryMessage host render message attempt w = (Returned tt, w')
      /\ trace w' = trace w ++ evs
      /\ attempts_made evs = j
      /\ (j <= n)%nat
      /\ (attempt < 4 -> (1 <= j)%nat)
      /\ (relay_calls evs <= j)%nat
      /\ (length (inserted_rows evs) <= j)%nat
      /\ sleeps evs = backoff_schedule j attempt.
Proof.
  induction n as [|n IH]; intros attempt w Hn.
  - rewrite retryMessage_exhausted_eq by lia.
    exists (snd (retryMessage_exhausted message attempt w)), [], O.
    unfold retryMessage_exhausted. run_monad. rewrite app_nil_r.
    repeat split; auto. lia.
  - assert (Hlt : attempt < 4) by lia.
    rewrite retryMessage_step by assumption.
    destruct (retry_begin_fields w) as (_ & _ & Ht0).
    destruct (retryMessage_try host render message attempt (retry_begin w))
      as [[[]|e] w1] eqn:Htry;
      pose proof (retryMessage_try_rows _ _ _ _ Htry) as (evs0 & Ht0' & Hrows & _);
      apply retryMessage_try_inv in Htry;
      destruct Htry as (_ & evs1 & Ht1 & Ha1 & Hr1 & _ & Hs1 & _ & _);
      assert (evs0 = evs1) by (rewrite Ht1 in Ht0'; now apply app_inv_head in Ht0');
      subst evs0;
      assert (Hlen1 : (length (inserted_rows evs1) <= 1)%nat)
        by (destruct Hrows as [-> | ->]; simpl; lia).
    + destruct (retry_end_fields w1) as (_ & _ & _ & _ & Ht3).
      exists (retry_end w1), evs1, 1%nat.
      split; [reflexivity|].
      split; [now rewrite Ht3, Ht1, Ht0|].
      split; [exact Ha1|]. split; [lia|]. split; [lia|].
      split; [exact Hr1|]. split; [exact Hlen1|].
      rewrite Hs1. simpl. now rewrite app_nil_r.
    + destruct (IH (attempt + 1) w1 ltac:(lia))
        as (w2 & evs2 & j & Hret & Ht2 & Ha2 & Hj & _ & Hr2 & Hi2 & Hs2).
      rewrite Hret.
      destruct (retry_end_fields w2) as (_ & _ & _ & _ & Ht3).
      exists (retry_end w2), (evs1 ++ evs2), (Datatypes.S j).
      split; [reflexivity|].
      split; [rewrite Ht3, Ht2, Ht1, Ht0; now rewrite app_assoc|].
      split; [rewrite attempts_made_app; lia|].
      split; [lia|]. split; [lia|].
      split; [rewrite relay_calls_app; lia|].
      split; [rewrite inserted_rows_app, length_app; lia|].
      rewrite sleeps_app, Hs1, Hs2. reflexivity.
Qed.

(** X9: whatever the host answers, a retry started with the default
    attempt makes between one and four attempts, calls the relay and
    inserts a row at most once per attempt, and sleeps before the second,
    third and fourth attempt only, for 4, 8 and 16 seconds. *)
Theorem retryMessage_bounded_effort (w : World Screen) :
  exists w' evs,
    retryMessage host render message 0 w = (Returned tt, w')
    /\ trace w' = trace w ++ evs
    /\ (1 <= attempts_made evs <= 4)%nat
    /\ (relay_calls evs <= attempts_made evs)%nat
    /\ (length (inserted_rows evs) <= attempts_made evs)%nat
    /\ sleeps evs = take (attempts_made evs - 1) [4000; 8000; 16000].
Proof.
  destruct (retryMessage_effort 4 0 w eq_refl)
    as (w' & evs & j & Hret & Ht & Ha & Hj & Hone & Hr & Hi & Hs).
  specialize (Hone ltac:(lia)).
  exists w', evs. rewrite Ha.
  repeat split; try assumption; try lia.
  rewrite Hs.
  assert (Hc : (j = 1 \/ j = 2 \/ j = 3 \/ j = 4)%nat) by lia.
  destruct Hc as [-> | [-> | [-> | ->]]]; reflexivity.
Qed.

(** X10: a retry at the default attempt completes at once when there is
    a session, the relay answers 2xx with a body that has a first choice
    with a message, and the insert is accepted; the content of that
    message is not looked at, so this holds even when it is missing.  The
    three calls are made without a sleep, the flags become
    [failed = false], [pending = false], [retryCount = 0], the error is
    cleared and the loading indicator is off. *)
Theorem retryMessage_first_attempt_completes (w : World Screen)
    (currentSession : Session) (response : Response) (body : RelayBody)
    (c : option string) :
  let calls := [EGetSession; EFetch (retry_request currentSession render)] in
  auth_getSession host (trace w ++ [EGetSession]) = Some currentSession ->
  relay_fetch host (trace w ++ calls) = FetchResolves response ->
  ok response = true ->
  json response = JsonResolves body ->
  body_choices body = FirstMessage c ->
  db_insert host (trace w ++ calls ++ [EInsert row]) = None ->
  exists w',
    retryMessage host render message 0 w = (Returned tt, w')
    /\ messages (state w')
       = mark_retried false (id message) 0 (messages (state w))
    /\ error (state w') = None
    /\ isLoading (state w') = false
    /\ trace w' = trace w ++ calls ++ [EInsert row].
Proof.
  intros calls Hsess Hres Hok Hjson Hbody Hins.
  rewrite retryMessage_step by lia.
  unfold retryMessage_try, retry_begin, retry_end. run_monad.
  rewrite Hsess. simpl.
  assert (Hc : (trace w ++ [EGetSession])
               ++ [EFetch (retry_request currentSession render)]
               = trace w ++ calls) by now rewrite <- app_assoc.
  rewrite Hc, Hres. simpl. rewrite Hok. simpl. rewrite Hjson. simpl.
  rewrite Hbody. simpl.
  assert (Hi : (trace w ++ calls) ++ [EInsert row]
               = trace w ++ calls ++ [EInsert row]) by now rewrite <- app_assoc.
  fold row. rewrite Hi, Hins. simpl.
  eexists. repeat split.
Qed.

(** X11: when a retry completes at attempt [k], the rows it has sent to
    the database are copies of the row of the retried message itself (its
    content, its role, its thread), one for the attempt that completed and
    at most one for each attempt before; no other row is written. *)
Theorem retryMessage_success_rows (attempt k : Z) (w w1 : World Screen) :
  retry_run host render message attempt w k w1 ->
  exists w' evs n,
    retryMessage host render message attempt w = (Returned tt, w')
    /\ trace w' = trace w ++ evs
    /\ inserted_rows evs = replicate n row
    /\ (1 <= n <= Z.to_nat (k - attempt + 1))%nat.
Proof.
  intros Hrun.
  induction Hrun as [attempt w w1 Hlt Htry
                    | attempt w w1 e k w2 Hlt Htry Hrun IH].
  - rewrite retryMessage_step, Htry by assumption.
    apply retryMessage_try_rows in Htry.
    destruct Htry as (evs1 & Ht1 & _ & Hrow).
    destruct (retry_begin_fields w) as (_ & _ & Ht0).
    destruct (retry_end_fields w1) as (_ & _ & _ & _ & Ht3).
    exists (retry_end w1), evs1, 1%nat.
    split; [reflexivity|]. split; [now rewrite Ht3, Ht1, Ht0|].
    split; [exact (Hrow tt eq_refl)|]. lia.
  - assert (Hk : attempt + 1 <= k).
    { clear -Hrun. induction Hrun; lia. }
    rewrite retryMessage_step, Htry by assumption.
    apply retryMessage_try_rows in Htry.
    destruct Htry as (evs1 & Ht1 & Hrows & _).
    destruct (retry_begin_fields w) as (_ & _ & Ht0).
    destruct IH as (w' & evs2 & n & Hret & Ht2 & Hi2 & Hn).
    rewrite Hret.
    destruct (retry_end_fields w') as (_ & _ & _ & _ & Ht3).
    destruct Hrows as [Hnone | Hone].
    + exists (retry_end w'), (evs1 ++ evs2), n.
      split; [reflexivity|].
      split; [rewrite Ht3, Ht2, Ht1, Ht0; now rewrite app_assoc|].
      split; [rewrite inserted_rows_app, Hnone, Hi2; reflexivity|]. lia.
    + exists (retry_end w'), (evs1 ++ evs2), (Datatypes.S n).
      split; [reflexivity|].
      split; [rewrite Ht3, Ht2, Ht1, Ht0; now rewrite app_assoc|].
      split; [rewrite inserted_rows_app, Hone, Hi2; reflexivity|]. lia.
Qed.

End RetryEffort.

(** ** The pass over the queued messages *)

Lemma or_else_empty (s : string) : Js.or_else (Some s) "" = s.
Proof. destruct s; reflexivity. Qed.

Section SyncPending.
Variables (host : Host) (render : Screen).

Lemma syncPendingMessages_loop_inv (keys : list string) :
  forall w : World Screen,
    exists r w' evs,
      syncPendingMessages_loop host render keys w = (r, w')
      /\ trace w' = trace w ++ evs
      /\ map message_key (messages (state w'))
         = map message_key (messages (state w))
      /\ (forall k, ~ In k keys -> storage w' !! k = storage w !! k)
      /\ (forall k, storage w' !! k = storage w !! k
                    \/ storage w' !! k = None).
Proof.
  induction keys as [|key rest IH]; intros w; simpl.
  - exists (Returned tt), w, []. rewrite app_nil_r. repeat split; auto.
  - unfold AsyncStorage.getItem, AsyncStorage.removeItem. run_monad.
    destruct (JSON_parse_message host _) as [message|]; simpl.
    + destruct (retryMessage_outcome host render message _ 0 w eq_refl)
        as (w1 & evs1 & f & k0 & Hret & Hs1 & Ht1 & _ & Hm1 & _).
      rewrite Hret. simpl.
      destruct (IH (mkWorld (state w1) (delete key (storage w1)) (trace w1)))
        as (r & w' & evs2 & Hloop & Ht2 & Hk2 & Hout & Hmono).
      rewrite Hloop. simpl in *.
      exists r, w', (evs1 ++ evs2).
      split; [reflexivity|].
      split; [rewrite Ht2, Ht1; now rewrite app_assoc|].
      split; [rewrite Hk2, Hm1; apply mark_retried_key|].
      split.
      * intros k Hk. rewrite Hout by tauto.
        rewrite lookup_delete_ne by (intros ->; tauto). now rewrite Hs1.
      * intros k. destruct (Hmono k) as [Hsame | Hnone]; [|now right].
        rewrite Hsame, Hs1.
        destruct (decide (key = k)) as [->|Hne].
        -- right. apply lookup_delete_eq.
        -- left. now apply lookup_delete_ne.
    + exists (Threw (new_Error "JSON Parse error")), w, [].
      rewrite app_nil_r. repeat split; auto.
Qed.

(** X12: a pass over the queued messages always returns (a failure
    inside it is only logged); it writes no key and adds none, it leaves
    every key that does not start with [pending_message_] as it was, and
    it changes nothing in the list but delivery flags. *)
Theorem syncPendingMessages_confined (w : World Screen) :
  exists w' evs,
    syncPendingMessages host render w = (Returned tt, w')
    /\ trace w' = trace w ++ evs
    /\ map message_key (messages (state w'))
       = map message_key (messages (state w))
    /\ (forall k, is_pending_key k = false ->
                  storage w' !! k = storage w !! k)
    /\ (forall k, storage w' !! k = storage w !! k
                  \/ storage w' !! k = None).
Proof.
  unfold syncPendingMessages, AsyncStorage.getAllKeys. run_monad.
  destruct (syncPendingMessages_loop_inv
              (List.filter (fun key => Js.startsWith "pending_message_" key)
                 (elements (dom (storage w)))) w)
    as (r & w' & evs & Hloop & Ht & Hk & Hout & Hmono).
  rewrite Hloop.
  assert (Hnp : forall k, is_pending_key k = false ->
                          storage w' !! k = storage w !! k).
  { intros k Hp. apply Hout. intros Hin.
    apply filter_In in Hin. destruct Hin as [_ Hin].
    unfold is_pending_key in Hp. congruence. }
  destruct r as [[]|e]; simpl; exists w', evs; repeat split; auto.
Qed.



(** X14: when the first queued item in the enumeration of the keys does
    not parse, the pass stops there: the world is unchanged, so no message
    is retried and no key is removed, whatever else is queued. *)
Theorem syncPendingMessages_stops_at_corrupt_item (w : World Screen)
    (key item : string) (rest : list string) :
  List.filter is_pending_key (elements (dom (storage w))) = key :: rest ->
  storage w !! key = Some item ->
  JSON_parse_message host item = None ->
  syncPendingMessages host render w = (Returned tt, w).
Proof.
  intros Hkeys Hitem Hparse.
  unfold syncPendingMessages, AsyncStorage.getAllKeys. run_monad.
  fold is_pending_key. unfold is_pending_key at 1.
  change (List.filter (fun key0 => Js.startsWith "pending_message_" key0))
    with (List.filter is_pending_key).
  rewrite Hkeys. simpl.
  unfold AsyncStorage.getItem. run_monad.
  rewrite Hitem, or_else_empty, Hparse. reflexivity.
Qed.

End SyncPending.


(** ** The message store *)

Section StoreActions.
Variable host : Host.

(** X16: messages added one by one end up appended in that order; those
    whose [pending] flag is true are appended to the pending list as well,
    in the same order; nothing else changes.  If every pending message was
    in the list before, that is still so afterwards. *)
Theorem addMessage_each_appends (l : list Message)
    (w : World MessagesStore.Store) :
  let w' := addMessage_each l w in
  MessagesStore.messages (state w') = MessagesStore.messages (state w) ++ l
  /\ MessagesStore.pendingMessages (state w')
     = MessagesStore.pendingMessages (state w)
       ++ List.filter (fun m => bool_decide (pending m = Some true)) l
  /\ storage w' = storage w
  /\ trace w' = trace w
  /\ ((forall m, In m (MessagesStore.pendingMessages (state w)) ->
                 In m (MessagesStore.messages (state w))) ->
      forall m, In m (MessagesStore.pendingMessages (state w')) ->
                In m (MessagesStore.messages (state w'))).
Proof.
  cbv zeta.
  assert (Hcore : forall l w,
    MessagesStore.messages (state (addMessage_each l w))
    = MessagesStore.messages (state w) ++ l
    /\ MessagesStore.pendingMessages (state (addMessage_each l w))
       = MessagesStore.pendingMessages (state w)
         ++ List.filter (fun m => bool_decide (pending m = Some true)) l
    /\ storage (addMessage_each l w) = storage w
    /\ trace (addMessage_each l w) = trace w).
  { clear l w. induction l as [|m l IH]; intros w.
    - unfold addMessage_each. simpl. rewrite !app_nil_r. auto.
    - change (addMessage_each (m :: l) w)
        with (addMessage_each l (snd (MessagesStore.addMessage m w))).
      destruct (IH (snd (MessagesStore.addMessage m w)))
        as (Hm & Hp & Hs & Ht).
      rewrite Hm, Hp, Hs, Ht.
      unfold MessagesStore.addMessage. run_monad.
      rewrite <- !app_assoc. simpl.
      destruct (pending m) as [[]|]; simpl;
        rewrite <- ?app_assoc; repeat split; reflexivity. }
  destruct (Hcore l w) as (Hm & Hp & Hs & Ht).
  repeat split; try assumption.
  intros Hsub m Hin. rewrite Hm. rewrite Hp in Hin.
  apply in_app_iff in Hin. apply in_app_iff.
  destruct Hin as [Hin|Hin]; [left; auto|].
  right. apply filter_In in Hin. tauto.
Qed.

Lemma filter_all_true {A : Type} (f : A -> bool) (l : list A) :
  (forall x, f x = true) -> List.filter f l = l.
Proof.
  intros H. induction l as [|x l IH]; simpl; [reflexivity|].
  now rewrite H, IH.
Qed.

Lemma filter_twice {A : Type} (f g : A -> bool) (l : list A) :
  List.filter f (List.filter g l) = List.filter (fun x => g x && f x) l.
Proof.
  induction l as [|x l IH]; simpl; [reflexivity|].
  destruct (g x); simpl; [|exact IH].
  destruct (f x); now rewrite IH.
Qed.

Lemma retryFailedMessages_loop_spec (todo : list Message) :
  forall w : World MessagesStore.Store,
    exists w',
      MessagesStore.retryFailedMessages_loop host todo w = (Returned tt, w')
      /\ MessagesStore.messages (state w') = MessagesStore.messages (state w)
      /\ storage w' = storage w
      /\ trace w' = trace w ++ map (fun m => EInsert (store_retry_row m)) todo
      /\ MessagesStore.pendingMessages (state w')
         = List.filter
             (fun m => negb (id_among (accepted_ids host (trace w) todo) m))
             (MessagesStore.pendingMessages (state w)).
Proof.
  induction todo as [|message rest IH]; intros w.
  - exists w. simpl. rewrite app_nil_r.
    repeat split; auto.
    symmetry. now apply filter_all_true.
  - simpl. run_monad. fold (store_retry_row message).
    destruct (db_insert host (trace w ++ [EInsert (store_retry_row message)]))
      as [e|] eqn:Hins; simpl.
    + match goal with
      | |- context [MessagesStore.retryFailedMessages_loop host rest ?w1] =>
          destruct (IH w1) as (w' & Hloop & Hm & Hs & Ht & Hp)
      end.
      rewrite Hloop. simpl in *. exists w'.
      split; [reflexivity|]. split; [exact Hm|]. split; [exact Hs|].
      split; [rewrite Ht; now rewrite <- app_assoc|]. exact Hp.
    + match goal with
      | |- context [MessagesStore.retryFailedMessages_loop host rest ?w1] =>
          destruct (IH w1) as (w' & Hloop & Hm & Hs & Ht & Hp)
      end.
      rewrite Hloop. simpl in *. exists w'.
      split; [reflexivity|]. split; [exact Hm|]. split; [exact Hs|].
      split; [rewrite Ht; now rewrite <- app_assoc|].
      rewrite Hp, filter_twice. apply List.filter_ext.
      intros m. symmetry. apply negb_orb.
Qed.

Lemma accepted_ids_all (tr : list Event) (todo : list Message) :
  (forall t, db_insert host t = None) ->
  accepted_ids host tr todo = map id todo.
Proof.
  intros Hok. revert tr. induction todo as [|m rest IH]; intros tr; simpl;
    [reflexivity|].
  rewrite Hok. now rewrite IH.
Qed.

Lemma accepted_ids_none (tr : list Event) (todo : list Message) :
  (forall t, db_insert host t <> None) ->
  accepted_ids host tr todo = [].
Proof.
  intros Hno. revert tr. induction todo as [|m rest IH]; intros tr; simpl;
    [reflexivity|].
  destruct (db_insert host _) eqn:E; [apply IH|].
  exfalso. eapply Hno. exact E.
Qed.

(** X17: [retryFailedMessages] returns on every path, inserts one row
    (content, role and thread, without a user id) for each message that was
    pending when it started, in order, and touches neither the list of
    messages nor the storage.  A message leaves the pending list exactly
    when the insert of a pending message with its id was accepted; so the
    pending list ends empty when every insert is accepted and unchanged
    when every insert is refused. *)
Theorem retryFailedMessages_spec (w : World MessagesStore.Store) :
  exists w',
    let todo := MessagesStore.pendingMessages (state w) in
    MessagesStore.retryFailedMessages host w = (Returned tt, w')
    /\ MessagesStore.messages (state w') = MessagesStore.messages (state w)
    /\ storage w' = storage w
    /\ trace w' = trace w ++ map (fun m => EInsert (store_retry_row m)) todo
    /\ MessagesStore.pendingMessages (state w')
       = List.filter
           (fun m => negb (id_among (accepted_ids host (trace w) todo) m))
           todo
    /\ ((forall t, db_insert host t = None) ->
        MessagesStore.pendingMessages (state w') = [])
    /\ ((forall t, db_insert host t <> None) ->
        MessagesStore.pendingMessages (state w') = todo).
Proof.
  destruct (retryFailedMessages_loop_spec
              (MessagesStore.pendingMessages (state w)) w)
    as (w' & Hloop & Hm & Hs & Ht & Hp).
  exists w'. cbv zeta.
  unfold MessagesStore.retryFailedMessages. run_monad. rewrite Hloop.
  split; [reflexivity|]. split; [exact Hm|]. split; [exact Hs|].
  split; [exact Ht|]. split; [exact Hp|]. split.
  - intros Hok. rewrite Hp, accepted_ids_all by assumption.
    apply filter_all_false. intros m Hin.
    apply negb_false_iff. unfold id_among. apply existsb_exists.
    exists (id m). split; [now apply in_map | apply String.eqb_refl].
  - intros Hno. rewrite Hp, accepted_ids_none by assumption.
    now apply filter_all_true.
Qed.

Section SyncMessages.
Variables (t : string) (w : World MessagesStore.Store).

Let key : string := MessagesStore.thread_cache_key t.
Let asked : list Event := trace w ++ [ESelect t].

(** The cached snapshot, when there is one and it is not the empty
    string. *)
Let cached : option string :=
  match storage w !! key with
  | Some c => if Js.truthy c then Some c else None
  | None => None
  end.

(** X18: when the cached snapshot (if any) parses and the server answers
    with rows, the rows win: they become the list whatever the cache held,
    and they are written under [cached_messages_<thread>] unless the write
    is rejected, which is not reported. *)
Theorem syncMessages_remote_wins (data : list Message) :
  (forall c, cached = Some c -> JSON_parse host c <> None) ->
  db_select host asked = (Some data, None) ->
  exists w',
    MessagesStore.syncMessages host t w = (Returned tt, w')
    /\ MessagesStore.messages (state w') = data
    /\ MessagesStore.pendingMessages (state w')
       = MessagesStore.pendingMessages (state w)
    /\ trace w' = asked
    /\ storage w'
       = if setItem_rejects host asked key then storage w
         else <[key := JSON_stringify host data]> (storage w).
Proof.
  intros Hparse Hsel.
  unfold MessagesStore.syncMessages, AsyncStorage.getItem, AsyncStorage.setItem.
  run_monad. fold key. unfold cached in Hparse.
  destruct (storage w !! key) as [c|]; simpl.
  - destruct (Js.truthy c); simpl.
    + specialize (Hparse c eq_refl).
      destruct (JSON_parse host c) as [ms|]; [|contradiction]. simpl.
      fold asked. rewrite Hsel. simpl.
      destruct (setItem_rejects host asked key); simpl;
        eexists; repeat split.
    + fold asked. rewrite Hsel. simpl.
      destruct (setItem_rejects host asked key); simpl;
        eexists; repeat split.
  - fold asked. rewrite Hsel. simpl.
    destruct (setItem_rejects host asked key); simpl;
      eexists; repeat split.
Qed.

(** X19: when the server answers with an error, the list is the cached
    snapshot if there is one (and it parses), and is left as it was
    otherwise; the error is only logged and the storage is not written. *)
Theorem syncMessages_server_error (e : Thrown) (data : option (list Message)) :
  (forall c, cached = Some c -> JSON_parse host c <> None) ->
  db_select host asked = (data, Some e) ->
  exists w',
    MessagesStore.syncMessages host t w = (Returned tt, w')
    /\ MessagesStore.messages (state w')
       = match cached with
         | Some c => default (MessagesStore.messages (state w))
                       (JSON_parse host c)
         | None => MessagesStore.messages (state w)
         end
    /\ MessagesStore.pendingMessages (state w')
       = MessagesStore.pendingMessages (state w)
    /\ trace w' = asked
    /\ storage w' = storage w.
Proof.
  intros Hparse Hsel.
  unfold MessagesStore.syncMessages, AsyncStorage.getItem, AsyncStorage.setItem.
  run_monad. fold key. unfold cached in *.
  destruct (storage w !! key) as [c|]; simpl.
  - destruct (Js.truthy c); simpl.
    + specialize (Hparse c eq_refl).
      destruct (JSON_parse host c) as [ms|]; [|contradiction]. simpl.
      fold asked. rewrite Hsel. simpl. eexists; repeat split.
    + fold asked. rewrite Hsel. simpl. eexists; repeat split.
  - fold asked. rewrite Hsel. simpl. eexists; repeat split.
Qed.

(** X20: when the cached snapshot does not parse, the sync stops before
    asking the server: the world is left exactly as it was. *)
Theorem syncMessages_corrupt_cache (c : string) :
  cached = Some c ->
  JSON_parse host c = None ->
  MessagesStore.syncMessages host t w = (Returned tt, w).
Proof.
  intros Hc Hparse.
  unfold MessagesStore.syncMessages, AsyncStorage.getItem.
  run_monad. fold key. unfold cached in Hc.
  destruct (storage w !! key) as [c'|]; [|discriminate]. simpl.
  destruct (Js.truthy c'); [|discriminate].
  injection Hc as ->. simpl. now rewrite Hparse.
Qed.

End SyncMessages.

(** X21: a snapshot written by a sync is read back by the next one: if a
    sync got the rows [data] from the server and its write was accepted,
    and the codec reads back what it wrote, then a later sync of the same
    thread during which the server fails restores [data], whatever the
    list had become in between. *)
Theorem syncMessages_round_trip (t : string) (w : World MessagesStore.Store)
    (data : list Message) (between : MessagesStore.Store) (e : Thrown)
    (again : option (list Message)) :
  let key := MessagesStore.thread_cache_key t in
  let asked := trace w ++ [ESelect t] in
  (forall c, storage w !! key = Some c -> c <> "" -> JSON_parse host c <> None) ->
  db_select host asked = (Some data, None) ->
  setItem_rejects host asked key = false ->
  JSON_stringify host data <> "" ->
  JSON_parse host (JSON_stringify host data) = Some data ->
  db_select host (asked ++ [ESelect t]) = (again, Some e) ->
  let w1 := snd (MessagesStore.syncMessages host t w) in
  let w2 := snd (MessagesStore.syncMessages host t
                   (mkWorld between (storage w1) (trace w1))) in
  MessagesStore.messages (state w1) = data
  /\ MessagesStore.messages (state w2) = data.
Proof.
  intros key asked Hclean Hsel Hwrite Hne Hcodec Hsel2 w1 w2.
  destruct (syncMessages_remote_wins t w data) as (w1' & Hret & Hm & _ & Ht & Hs).
  { intros c Hc. destruct (storage w !! MessagesStore.thread_cache_key t)
      as [c'|] eqn:Hk; [|discriminate].
    destruct (Js.truthy c') eqn:Htr; [|discriminate].
    injection Hc as ->. apply (Hclean c Hk). now apply truthy_true. }
  { exact Hsel. }
  fold key asked in Ht, Hs. rewrite Hwrite in Hs.
  assert (Hw1 : w1 = w1') by (unfold w1; now rewrite Hret).
  split; [now rewrite Hw1|].
  assert (Hk1 : storage w1 !! key = Some (JSON_stringify host data))
    by (rewrite Hw1, Hs; apply lookup_insert_eq).
  apply truthy_true in Hne.
  destruct (syncMessages_server_error t
              (mkWorld between (storage w1) (trace w1)) e again)
    as (w2' & Hret2 & Hm2 & _).
  { simpl. fold key. rewrite Hk1, Hne. intros c [= <-]. congruence. }
  { simpl. rewrite Hw1, Ht. exact Hsel2. }
  unfold w2. rewrite Hret2. simpl. rewrite Hm2. simpl.
  fold key. rewrite Hk1, Hne, Hcodec. reflexivity.
Qed.

(** X22: [setMessages] returns even when the cache write is rejected (the
    storage is then untouched); it leaves the pending list and makes no
    call.  The cache keeps the last snapshot only: after two calls whose
    second write is accepted, the storage is what the second call alone
    would have left. *)
Theorem setMessages_last_snapshot (a b : list Message)
    (w : World MessagesStore.Store) :
  let w1 := snd (MessagesStore.setMessages host a w) in
  let w2 := snd (MessagesStore.setMessages host b w1) in
  fst (MessagesStore.setMessages host a w) = Returned tt
  /\ fst (MessagesStore.setMessages host b w1) = Returned tt
  /\ (setItem_rejects host (trace w) "cached_messages" = true ->
      storage w1 = storage w)
  /\ MessagesStore.messages (state w2) = b
  /\ MessagesStore.pendingMessages (state w2)
     = MessagesStore.pendingMessages (state w)
  /\ trace w2 = trace w
  /\ (setItem_rejects host (trace w) "cached_messages" = false ->
      storage w2 = <["cached_messages" := JSON_stringify host b]> (storage w)
      /\ storage w2 !! "cached_messages" = Some (JSON_stringify host b)).
Proof.
  cbv zeta.
  unfold MessagesStore.setMessages, AsyncStorage.setItem. run_monad.
  destruct (setItem_rejects host (trace w) "cached_messages") eqn:Hrej; simpl;
    rewrite Hrej; simpl; repeat split; try reflexivity; try discriminate.
  - apply insert_insert_eq.
  - apply lookup_insert_eq.
Qed.

End StoreActions.

(** ** Threads, the welcome message and the title *)

Section NavigationProperties.
Import Navigation.
Variable tables : Tables.

Section LoadThread.
Variables (thread : string) (w : World Nav).

Let calls : list TableCall := table_calls (state w) ++ [SelectThread thread].
Let asked : list Event := trace w ++ [ESelect thread].

(** X23: when the lookup of the thread is answered with an error,
    [loadThread] sets the error [Failed to load thread] and stops: the
    current thread and the list stay as they were and the messages are not
    asked for. *)
Theorem loadThread_lookup_fails (found : option Thread) (e : Thrown) :
  thread_by_id tables (trace w) calls = (found, Some e) ->
  exists w',
    loadThread tables thread w = (Returned tt, w')
    /\ currentThread (screen (state w')) = currentThread (screen (state w))
    /\ messages (screen (state w')) = messages (screen (state w))
    /\ error (screen (state w')) = Some "Failed to load thread"
    /\ table_calls (state w') = calls
    /\ trace w' = trace w.
Proof.
  intros Hfound. run_nav. fold calls. rewrite Hfound. simpl.
  eexists. repeat split.
Qed.

(** X24: when the thread is found but the query for its messages is
    answered with an error, the switch has already happened: the current
    thread is the one found, while the list still holds the messages shown
    before; the error [Failed to load thread] is set. *)
Theorem loadThread_messages_query_fails (found : option Thread)
    (rows : option (list Message)) (e : Thrown) :
  thread_by_id tables (trace w) calls = (found, None) ->
  thread_messages tables asked calls = (rows, Some e) ->
  exists w',
    loadThread tables thread w = (Returned tt, w')
    /\ currentThread (screen (state w')) = found
    /\ messages (screen (state w')) = messages (screen (state w))
    /\ error (screen (state w')) = Some "Failed to load thread"
    /\ table_calls (state w') = calls
    /\ trace w' = asked.
Proof.
  intros Hfound Hrows. run_nav. fold calls. rewrite Hfound. simpl.
  fold asked. rewrite Hrows. simpl.
  eexists. repeat split.
Qed.

(** X25: when both queries are answered, the thread found becomes the
    current one and the list becomes the rows returned, or the empty list
    when no rows come back; an error set earlier is not cleared. *)
Theorem loadThread_success (found : option Thread)
    (rows : option (list Message)) :
  thread_by_id tables (trace w) calls = (found, None) ->
  thread_messages tables asked calls = (rows, None) ->
  exists w',
    loadThread tables thread w = (Returned tt, w')
    /\ currentThread (screen (state w')) = found
    /\ messages (screen (state w')) = default [] rows
    /\ error (screen (state w')) = error (screen (state w))
    /\ table_calls (state w') = calls
    /\ trace w' = asked.
Proof.
  intros Hfound Hrows. run_nav. fold calls. rewrite Hfound. simpl.
  fold asked. rewrite Hrows. simpl.
  eexists. repeat split.
Qed.

End LoadThread.

Lemma loadThread_returns (thread : string) (w : World Nav) :
  exists w', loadThread tables thread w = (Returned tt, w').
Proof.
  run_nav.
  destruct (thread_by_id tables _ _) as [found [e|]]; simpl; [eauto|].
  destruct (thread_messages tables _ _) as [rows [e|]]; simpl; eauto.
Qed.

Lemma initializeThread_returns (render : Screen) (w : World Nav) :
  exists w', initializeThread tables render w = (Returned tt, w').
Proof.
  run_nav. destruct (session render) as [s|]; simpl; [|eauto].
  destruct (thread_created tables _ _) as [created [e|]]; simpl; eauto.
Qed.

Section CheckExistingThreads.
Variables (render : Screen) (w : World Nav).

Let lookup : TableCall := SelectLatestThread (user_id <$> session render).
Let calls : list TableCall := table_calls (state w) ++ [lookup].

(** X26: when the user has threads, the first row returned (the most
    recent thread) is made current at once and then loaded: the outcome is
    that of [loadThread] for that thread, run once the switch is done; the
    other rows are not used. *)
Theorem checkExistingThreads_loads_latest (first : Thread)
    (others : list Thread) :
  latest_threads tables (trace w) calls = (Some (first :: others), None) ->
  checkExistingThreads tables render w
  = loadThread tables (Thread_id first)
      (mkWorld
         {| screen :=
              {| messages := messages (screen (state w));
                 currentThread := Some first;
                 input := input (screen (state w));
                 isLoading := isLoading (screen (state w));
                 error := error (screen (state w));
                 session := session (screen (state w));
                 systemPrompt := systemPrompt (screen (state w)) |};
            table_calls := calls |}
         (storage w) (trace w)).
Proof.
  intros Hfound.
  unfold checkExistingThreads.
  unfold table_call, on_screen at 1, setCurrentThread, modify,
    mbind, M_bind, mret, M_ret, try_catch, throw. simpl.
  fold lookup calls. rewrite Hfound. simpl.
  match goal with
  | |- context [loadThread tables ?i ?w1] =>
      destruct (loadThread_returns i w1) as (w' & Hret)
  end.
  unfold on_screen, setCurrentThread, modify. simpl.
  now rewrite Hret.
Qed.

(** X27: when the user has no thread yet (no rows, or none at all), a
    thread titled [New Chat] is created for the user of the session and
    becomes the current one, with an empty list; without a session nothing
    is created and the screen is left as it was. *)
Theorem checkExistingThreads_creates_first_thread
    (found : option (list Thread)) (created : option Thread) :
  found = None \/ found = Some [] ->
  latest_threads tables (trace w) calls = (found, None) ->
  (forall s, session render = Some s ->
     thread_created tables (trace w)
       (calls ++ [InsertThread "New Chat" (user_id s)]) = (created, None)) ->
  exists w',
    checkExistingThreads tables render w = (Returned tt, w')
    /\ trace w' = trace w
    /\ match session render with
       | Some s =>
           currentThread (screen (state w')) = created
           /\ messages (screen (state w')) = []
           /\ table_calls (state w')
              = calls ++ [InsertThread "New Chat" (user_id s)]
       | None =>
           screen (state w') = screen (state w)
           /\ table_calls (state w') = calls
       end.
Proof.
  unfold calls, lookup. intros Hnone Hfound Hcreated. run_nav.
  rewrite Hfound. simpl.
  assert (Hbranch : match found with
                    | Some (first :: _) => False
                    | _ => True
                    end) by (destruct Hnone as [-> | ->]; exact I).
  destruct (session render) as [s|] eqn:Hs.
  - specialize (Hcreated s eq_refl). simpl in Hcreated.
    destruct found as [[|first others]|]; try contradiction;
      simpl; run_nav; rewrite Hs; simpl; rewrite Hcreated; simpl;
      eexists; repeat split.
  - destruct found as [[|first others]|]; try contradiction;
      simpl; run_nav; rewrite Hs; simpl; eexists; repeat split.
Qed.

End CheckExistingThreads.

Lemma substring_0_length (n : nat) (s : string) :
  (String.length (String.substring 0 n s) <= n)%nat.
Proof.
  revert s. induction n as [|n IH]; intros [|c s]; simpl; try lia.
  specialize (IH s). lia.
Qed.

Lemma substring_0_prefix (n : nat) (s : string) :
  String.prefix (String.substring 0 n s) s = true.
Proof.
  revert s. induction n as [|n IH]; intros [|c s]; simpl; try reflexivity.
  destruct (ascii_dec c c); [apply IH | contradiction].
Qed.

Lemma substring_0_short (n : nat) (s : string) :
  (String.length s <= n)%nat -> String.substring 0 n s = s.
Proof.
  revert s. induction n as [|n IH]; intros [|c s]; simpl; intros H;
    try reflexivity; try lia.
  rewrite IH by lia. reflexivity.
Qed.

(** X28: [updateThreadTitle] asks the database to set the title to the
    first 50 characters of the message (the whole message when it is
    shorter) and always returns.  Only when the update is accepted does the
    title of the current thread change, to that text; this happens whatever
    thread is current, and the id and creation time are kept.  A refused
    update changes nothing on the screen and sets no error. *)
Theorem updateThreadTitle_spec (thread firstMessage : string)
    (w : World Nav) :
  let title := title_of firstMessage in
  let calls := table_calls (state w) ++ [UpdateThreadTitle thread title] in
  (String.length title <= 50)%nat
  /\ String.prefix title firstMessage = true
  /\ ((String.length firstMessage <= 50)%nat -> title = firstMessage)
  /\ exists w',
       updateThreadTitle tables thread firstMessage w = (Returned tt, w')
       /\ table_calls (state w') = calls
       /\ trace w' = trace w
       /\ messages (screen (state w')) = messages (screen (state w))
       /\ error (screen (state w')) = error (screen (state w))
       /\ currentThread (screen (state w'))
          = match title_updated tables (trace w) calls with
            | Some _ => currentThread (screen (state w))
            | None => with_title title <$> currentThread (screen (state w))
            end.
Proof.
  cbv zeta. unfold title_of.
  split; [apply substring_0_length|]. split; [apply substring_0_prefix|].
  split; [apply substring_0_short|].
  run_nav. unfold title_of.
  destruct (title_updated tables _ _) as [e|]; simpl.
  - eexists. repeat split.
  - eexists. repeat split.
Qed.

End NavigationProperties.

(** X29: with a session, a current thread and an empty list, the welcome
    effect puts exactly one message in the list, from the assistant, with
    the id [welcome] and the id of the current thread; it makes no call and
    writes nothing, so the message exists on the screen only.  Run again
    from a render that shows that list, or from any render whose list is
    not empty, the effect does nothing. *)
Theorem welcome_effect_once (host : Host) (render : Screen)
    (w : World Screen) (s : Session) (thread : Thread) :
  session render = Some s ->
  currentThread render = Some thread ->
  messages render = [] ->
  exists w',
    Navigation.welcome_effect host render w = (Returned tt, w')
    /\ messages (state w')
       = [Navigation.welcome_message (Date_toISOString host (trace w)) thread]
    /\ map (fun m => (id m, role m, thread_id m)) (messages (state w'))
       = [("welcome", assistant, Thread_id thread)]
    /\ trace w' = trace w
    /\ storage w' = storage w
    /\ (forall render' w2,
          messages render' <> [] ->
          Navigation.welcome_effect host render' w2 = (Returned tt, w2))
    /\ (forall render',
          messages render' = messages (state w') ->
          Navigation.welcome_effect host render' w' = (Returned tt, w')).
Proof.
  intros Hs Ht Hm.
  assert (Hnonempty : forall render' w2,
            messages render' <> [] ->
            Navigation.welcome_effect host render' w2 = (Returned tt, w2)).
  { intros render' w2 Hne. unfold Navigation.welcome_effect.
    destruct (session render'), (currentThread render'); try reflexivity.
    destruct (messages render'); [contradiction | reflexivity]. }
  unfold Navigation.welcome_effect at 1. rewrite Hs, Ht, Hm. run_monad.
  eexists. split; [reflexivity|]. simpl.
  repeat split; try assumption.
  intros render' Heq. apply Hnonempty. rewrite Heq. discriminate.
Qed.

(** ** Further concrete runs *)

Lemma sendMessage_user_insert_refused_witness :
  exists w',
    sendMessage Cases.insert_refused Scenario.asking Scenario.asking_world
    = (Returned tt, w')
    /\ error (state w')
       = Some "Failed to save user message: permission denied for table messages"
    /\ map (fun m => (failed m, pending m)) (messages (state w'))
       = [(Some true, Some false)]
    /\ length (trace w') = 1%nat.
Proof.
  edestruct (sendMessage_user_insert_refused Cases.insert_refused
               Scenario.asking Scenario.asking_world Scenario.thread1)
    as (w' & Hret & Hm & He & _ & _ & _ & Ht);
    [reflexivity | discriminate | reflexivity | reflexivity |].
  exists w'. split; [exact Hret|]. split; [exact He|].
  split; [rewrite Hm; reflexivity | rewrite Ht; reflexivity].
Defined.

Lemma sendMessage_no_session_witness :
  exists w',
    sendMessage Cases.signed_out Scenario.asking Scenario.asking_world
    = (Returned tt, w')
    /\ error (state w') = Some "No active session"
    /\ relay_calls (trace w') = O.
Proof.
  edestruct (sendMessage_no_session Cases.signed_out
               Scenario.asking Scenario.asking_world Scenario.thread1)
    as (w' & Hret & _ & He & _ & _ & _ & Ht);
    [reflexivity | discriminate | reflexivity | reflexivity | reflexivity |].
  exists w'. split; [exact Hret|]. split; [exact He|].
  rewrite Ht. reflexivity.
Defined.

Lemma sendMessage_request_rejected_witness :
  exists w',
    sendMessage Scenario.relay_down Scenario.asking Scenario.asking_world
    = (Returned tt, w')
    /\ error (state w') = Some "Network request failed"
    /\ map (fun m => (failed m, pending m)) (messages (state w'))
       = [(Some true, Some false)].
Proof.
  edestruct (sendMessage_request_rejected Scenario.relay_down
               Scenario.asking Scenario.asking_world Scenario.thread1)
    as (w' & Hret & Hm & He & _);
    [reflexivity | discriminate | reflexivity | reflexivity | reflexivity
    | reflexivity |].
  exists w'. split; [exact Hret|]. split; [exact He|].
  rewrite Hm. reflexivity.
Defined.

Lemma sendMessage_reply_unusable_witness :
  exists w',
    sendMessage Cases.without_content Scenario.asking Scenario.asking_world
    = (Returned tt, w')
    /\ error (state w') = Some "Invalid AI response format"
    /\ length (inserted_rows (trace w')) = 1%nat.
Proof.
  edestruct (sendMessage_reply_unusable Cases.without_content
               Scenario.asking Scenario.asking_world Scenario.thread1)
    as (w' & Hret & _ & He & _ & _ & _ & Ht);
    [reflexivity | discriminate | reflexivity | reflexivity | reflexivity
    | reflexivity | reflexivity
    | intros body Hb; injection Hb as <-; reflexivity |].
  exists w'. split; [exact Hret|]. split; [exact He|].
  rewrite Ht. reflexivity.
Defined.

Lemma sendMessage_reply_not_saved_witness :
  exists w',
    sendMessage Cases.assistant_refused Scenario.asking Scenario.asking_world
    = (Returned tt, w')
    /\ error (state w') = Some "Failed to send message"
    /\ map (fun m => (role m, failed m)) (messages (state w'))
       = [(user, Some true)]
    /\ relay_calls (trace w') = 1%nat.
Proof.
  edestruct (sendMessage_reply_not_saved Cases.assistant_refused
               Scenario.asking Scenario.asking_world Scenario.thread1)
    as (w' & Hret & Hm & He & _ & _ & _ & Ht);
    [reflexivity | discriminate | reflexivity | reflexivity | reflexivity
    | reflexivity | reflexivity | reflexivity | reflexivity
    | reflexivity |].
  exists w'. split; [exact Hret|]. split; [exact He|].
  split; [rewrite Hm; reflexivity | rewrite Ht; reflexivity].
Defined.

Lemma retryMessage_first_attempt_completes_witness :
  exists w',
    retryMessage Cases.without_content
      (Scenario.screen_with [Scenario.failed_question] "")
      Scenario.failed_question 0
      (Scenario.world_with [Scenario.failed_question] "")
    = (Returned tt, w')
    /\ messages (state w')
       = [with_failed_pending_retryCount false false 0
            Scenario.failed_question]
    /\ sleeps (trace w') = [].
Proof.
  edestruct (retryMessage_first_attempt_completes Cases.without_content
               (Scenario.screen_with [Scenario.failed_question] "")
               Scenario.failed_question
               (Scenario.world_with [Scenario.failed_question] ""))
    as (w' & Hret & Hm & _ & _ & Ht);
    [reflexivity | reflexivity | reflexivity | reflexivity | reflexivity
    | reflexivity |].
  exists w'. split; [exact Hret|].
  split; [exact Hm | rewrite Ht; reflexivity].
Defined.

Lemma retryMessage_success_rows_witness :
  exists w' n,
    retryMessage Scenario.relay_flaky
      (Scenario.screen_with [Scenario.failed_question] "")
      Scenario.failed_question 0
      (Scenario.world_with [Scenario.failed_question] "")
    = (Returned tt, w')
    /\ inserted_rows (trace w')
       = replicate n
           (message_row (Scenario.screen_with [Scenario.failed_question] "")
              "t1" "What is promissory estoppel?" user)
    /\ (1 <= n <= 3)%nat.
Proof.
  edestruct (retryMessage_success_rows Scenario.relay_flaky
               (Scenario.screen_with [Scenario.failed_question] "")
               Scenario.failed_question 0 2
               (Scenario.world_with [Scenario.failed_question] ""))
    as (w' & evs & n & Hret & Ht & Hrows & Hn).
  - eapply retry_run_failure; [lia | vm_compute; reflexivity |].
    eapply retry_run_failure; [lia | vm_compute; reflexivity |].
    apply retry_run_success; [lia | vm_compute; reflexivity].
  - exists w', n. split; [exact Hret|].
    split; [rewrite Ht; exact Hrows | exact Hn].
Defined.


Lemma syncPendingMessages_stops_at_corrupt_item_witness :
  syncPendingMessages Scenario.relay_up
    (Scenario.screen_with [Scenario.failed_question] "")
    (Cases.queued_world "corrupt")
  = (Returned tt, Cases.queued_world "corrupt").
Proof.
  eapply (syncPendingMessages_stops_at_corrupt_item Scenario.relay_up
            (Scenario.screen_with [Scenario.failed_question] "")
            (Cases.queued_world "corrupt")
            "pending_message_1714557600000" "corrupt" []);
    vm_compute; reflexivity.
Defined.

Lemma syncMessages_remote_wins_witness :
  exists w',
    MessagesStore.syncMessages Cases.server_then_down "t1"
      (Cases.store_world [] {[ "cached_messages_t1" := "[]" ]})
    = (Returned tt, w')
    /\ MessagesStore.messages (state w') = [Scenario.failed_question]
    /\ storage w' !! "cached_messages_t1" = Some "rows".
Proof.
  edestruct (syncMessages_remote_wins Cases.server_then_down "t1"
               (Cases.store_world [] {[ "cached_messages_t1" := "[]" ]}))
    as (w' & Hret & Hm & _ & _ & Hs).
  - intros c Hc. vm_compute in Hc. injection Hc as <-. discriminate.
  - reflexivity.
  - exists w'. split; [exact Hret|]. split; [exact Hm|].
    rewrite Hs. reflexivity.
Defined.

Lemma syncMessages_server_error_witness :
  exists w',
    MessagesStore.syncMessages Cases.server_then_down "t1"
      {| state := MessagesStore.initial;
         storage := {[ "cached_messages_t1" := "rows" ]};
         trace := [ESelect "t0"] |}
    = (Returned tt, w')
    /\ MessagesStore.messages (state w') = [Scenario.failed_question]
    /\ storage w' = {[ "cached_messages_t1" := "rows" ]}.
Proof.
  edestruct (syncMessages_server_error Cases.server_then_down "t1"
               {| state := MessagesStore.initial;
                  storage := {[ "cached_messages_t1" := "rows" ]};
                  trace := [ESelect "t0"] |})
    as (w' & Hret & Hm & _ & _ & Hs).
  - intros c Hc. vm_compute in Hc. injection Hc as <-. discriminate.
  - reflexivity.
  - exists w'. split; [exact Hret|]. split; [|exact Hs].
    rewrite Hm. reflexivity.
Defined.

Lemma syncMessages_corrupt_cache_witness :
  MessagesStore.syncMessages Cases.server_then_down "t1"
    (Cases.store_world [] {[ "cached_messages_t1" := "{" ]})
  = (Returned tt, Cases.store_world [] {[ "cached_messages_t1" := "{" ]}).
Proof.
  apply (syncMessages_corrupt_cache Cases.server_then_down "t1"
           (Cases.store_world [] {[ "cached_messages_t1" := "{" ]}) "{");
    reflexivity.
Defined.

Lemma syncMessages_round_trip_witness :
  let w1 := snd (MessagesStore.syncMessages Cases.server_then_down "t1"
                   (Cases.store_world [] ∅)) in
  let w2 := snd (MessagesStore.syncMessages Cases.server_then_down "t1"
                   (mkWorld MessagesStore.initial (storage w1) (trace w1))) in
  MessagesStore.messages (state w1) = [Scenario.failed_question]
  /\ MessagesStore.messages (state w2) = [Scenario.failed_question].
Proof.
  apply (syncMessages_round_trip Cases.server_then_down "t1"
           (Cases.store_world [] ∅) [Scenario.failed_question]
           MessagesStore.initial Cases.refusal None);
    try reflexivity; discriminate.
Defined.

Lemma loadThread_lookup_fails_witness :
  exists w',
    Navigation.loadThread
      (Cases.tables_of (None, Some Cases.refusal) (None, None) (None, None))
      "t1" (Cases.nav_world Cases.older_screen)
    = (Returned tt, w')
    /\ currentThread (Navigation.screen (state w')) = Some Cases.older_thread
    /\ error (Navigation.screen (state w')) = Some "Failed to load thread".
Proof.
  edestruct (loadThread_lookup_fails
               (Cases.tables_of (None, Some Cases.refusal) (None, None)
                  (None, None))
               "t1" (Cases.nav_world Cases.older_screen))
    as (w' & Hret & Hc & _ & He & _); [reflexivity|].
  exists w'. split; [exact Hret|]. split; [exact Hc | exact He].
Defined.

Lemma loadThread_messages_query_fails_witness :
  exists w',
    Navigation.loadThread
      (Cases.tables_of (Some Scenario.thread1, None) (None, None)
         (None, Some Cases.refusal))
      "t1" (Cases.nav_world Cases.older_screen)
    = (Returned tt, w')
    /\ currentThread (Navigation.screen (state w')) = Some Scenario.thread1
    /\ map thread_id (messages (Navigation.screen (state w'))) = ["t1"]
    /\ messages (Navigation.screen (state w')) = messages Cases.older_screen.
Proof.
  edestruct (loadThread_messages_query_fails
               (Cases.tables_of (Some Scenario.thread1, None) (None, None)
                  (None, Some Cases.refusal))
               "t1" (Cases.nav_world Cases.older_screen))
    as (w' & Hret & Hc & Hm & _); [reflexivity | reflexivity |].
  exists w'. split; [exact Hret|]. split; [exact Hc|].
  split; [rewrite Hm; reflexivity | exact Hm].
Defined.

Lemma loadThread_success_witness :
  exists w',
    Navigation.loadThread
      (Cases.tables_of (Some Scenario.thread1, None) (None, None) (None, None))
      "t1" (Cases.nav_world Cases.older_screen)
    = (Returned tt, w')
    /\ currentThread (Navigation.screen (state w')) = Some Scenario.thread1
    /\ messages (Navigation.screen (state w')) = [].
Proof.
  edestruct (loadThread_success
               (Cases.tables_of (Some Scenario.thread1, None) (None, None)
                  (None, None))
               "t1" (Cases.nav_world Cases.older_screen))
    as (w' & Hret & Hc & Hm & _); [reflexivity | reflexivity |].
  exists w'. split; [exact Hret|]. split; [exact Hc | exact Hm].
Defined.

Lemma checkExistingThreads_loads_latest_witness :
  let tables :=
    Cases.tables_of (Some Scenario.thread1, None)
      (Some [Scenario.thread1; Cases.older_thread], None)
      (Some [Scenario.failed_question], None) in
  let w' := snd (Navigation.checkExistingThreads tables Scenario.asking
                   (Cases.nav_world Scenario.asking)) in
  currentThread (Navigation.screen (state w')) = Some Scenario.thread1
  /\ messages (Navigation.screen (state w')) = [Scenario.failed_question].
Proof.
  cbv zeta.
  rewrite (checkExistingThreads_loads_latest _ _ _ Scenario.thread1
             [Cases.older_thread]) by reflexivity.
  split; reflexivity.
Defined.

Lemma checkExistingThreads_creates_first_thread_witness :
  exists w',
    Navigation.checkExistingThreads
      (Cases.tables_of (None, None) (Some [], None) (None, None))
      Scenario.asking (Cases.nav_world Scenario.asking)
    = (Returned tt, w')
    /\ currentThread (Navigation.screen (state w')) = Some Scenario.thread1
    /\ Navigation.table_calls (state w')
       = [Navigation.SelectLatestThread (Some "u1");
          Navigation.InsertThread "New Chat" "u1"].
Proof.
  edestruct (checkExistingThreads_creates_first_thread
               (Cases.tables_of (None, None) (Some [], None) (None, None))
               Scenario.asking (Cases.nav_world Scenario.asking)
               (Some []) (Some Scenario.thread1))
    as (w' & Hret & _ & Hc & _ & Hcalls);
    [right; reflexivity | reflexivity | intros s Hs; reflexivity |].
  exists w'. split; [exact Hret|]. split; [exact Hc | exact Hcalls].
Defined.

Lemma welcome_effect_once_witness :
  exists w',
    Navigation.welcome_effect Scenario.relay_up Scenario.asking
      Scenario.asking_world
    = (Returned tt, w')
    /\ map (fun m => (id m, role m, thread_id m)) (messages (state w'))
       = [("welcome", assistant, "t1")]
    /\ trace w' = [].
Proof.
  edestruct (welcome_effect_once Scenario.relay_up Scenario.asking
               Scenario.asking_world Scenario.session1 Scenario.thread1)
    as (w' & Hret & _ & Hm & Ht & _);
    [reflexivity | reflexivity | reflexivity |].
  exists w'. split; [exact Hret|]. split; [exact Hm | exact Ht].
Defined.
